(** * pystemd: the introspection-driven proxy (base.py) and pystemd.run (run.py)

  A shallow embedding of [pystemd/base.py] and [pystemd/run.py].

  Python objects become records, dictionaries become [gmap]s (or
  association lists where the insertion order is observable), [bytes] and
  [str] become [string], and code that raises or talks to the bus becomes a
  computation in a small state-and-exception monad. *)

From Stdlib Require Import ZArith String Ascii.
From Stdlib Require QArith.
From stdpp Require Import gmap strings list fin_maps pretty.

Local Open Scope Z_scope.
Local Open Scope string_scope.

(** ** Python values and exceptions *)

Module Py.

(** The values that travel through the two modules: property values of a
    unit, arguments and replies of bus calls. *)
#[warnings="-register-all"]
Inductive pyval : Type :=
| PNone
| PBool (b : bool)
| PInt (n : Z)
| PBytes (s : string)
| PList (l : list pyval)
| PTuple (l : list pyval).

(** [v is not None] *)
Definition is_not_None (v : pyval) : bool :=
  match v with PNone => false | _ => true end.

(** The exceptions raised by the code under study. *)
Inductive exn : Type :=
| TypeError (msg : string)
| AttributeError (msg : string)
| NotImplementedError (msg : string)
| KeyError (key : string)
| IndexError (msg : string)
| OtherError (msg : string).

Inductive outcome (A : Type) : Type :=
| Ok (a : A)
| Raise (e : exn).
Arguments Ok {A} a.
Arguments Raise {A} e.

(** A computation over a world [W]: it returns or raises, and leaves a
    world behind in both cases. *)
Definition M (W A : Type) : Type := W → outcome A * W.

Definition ret {W A} (a : A) : M W A := λ w, (Ok a, w).

Definition raise {W A} (e : exn) : M W A := λ w, (Raise e, w).

Definition bind {W A B} (c : M W A) (k : A → M W B) : M W B :=
  λ w, match c w with
       | (Ok a, w') => k a w'
       | (Raise e, w') => (Raise e, w')
       end.

(** Sequencing of pure code that may raise. *)
Definition obind {A B} (r : outcome A) (k : A → outcome B) : outcome B :=
  match r with
  | Ok a => k a
  | Raise e => Raise e
  end.

(** [try: c finally: h] where the handler [h] itself does not raise. *)
Definition finally {W A} (c : M W A) (h : W → W) : M W A :=
  λ w, let '(r, w') := c w in (r, h w').

(** Lifting of a pure result that may be an exception. *)
Definition lift {W A} (r : outcome A) : M W A := λ w, (r, w).

(** [for x in l: f(x)] *)
Fixpoint for_each {W A} (l : list A) (f : A → M W unit) : M W unit :=
  match l with
  | [] => ret tt
  | x :: l' => bind (f x) (λ _, for_each l' f)
  end.

End Py.

Import Py.

Notation "x <~ c ;; k" := (bind c (λ x, k))
  (at level 100, c at next level, right associativity, only parsing).
Notation "c ;;; k" := (bind c (λ _, k))
  (at level 100, right associativity, only parsing).
Notation "x <~? r ;; k" := (obind r (λ x, k))
  (at level 100, r at next level, right associativity, only parsing).

(** ** base.py *)

Module Base.

(** *** The introspection document (xml.dom.minidom) *)

#[warnings="-register-all"]
Inductive node : Type :=
| Element (tag : string) (attributes : list (string * string))
    (children : list node)
| Text (data : string)
| Comment (data : string).

Definition ELEMENT_NODE : Z := 1.

Definition nodeType (n : node) : Z :=
  match n with
  | Element _ _ _ => 1
  | Text _ => 3
  | Comment _ => 8
  end.

Definition tagName (n : node) : string :=
  match n with
  | Element tag _ _ => tag
  | _ => ""
  end.

Definition childNodes (n : node) : list node :=
  match n with
  | Element _ _ children => children
  | _ => []
  end.

Fixpoint assoc (l : list (string * string)) (k : string) : option string :=
  match l with
  | [] => None
  | (k', v) :: l' => if String.eqb k' k then Some v else assoc l' k
  end.

(** [getAttribute] answers the empty string for an attribute that is not
    there. *)
Definition getAttribute (n : node) (attname : string) : string :=
  match n with
  | Element _ attributes _ => default "" (assoc attributes attname)
  | _ => ""
  end.

(** *** The bus *)

(** A connection: the one a caller handed over, or one made by [DBus()]. *)
Inductive DBus : Type :=
| Given (id : nat)
| Fresh.

(** What happens on the bus, oldest first. *)
Inductive event : Type :=
| BusOpen (bus : DBus)
| BusClose (bus : DBus)
| CallMethod (bus : DBus) (destination path interface member : string)
    (args : list pyval)
| GetProperty (bus : DBus) (destination path interface name type : string).

Definition World : Type := list event.

(** The other side of the bus and the helpers of [pystemd.dbuslib] and
    [xml.dom.minidom]: the body of the reply to a method call and the value
    of a property (both may depend on what happened before),
    [parseString(body).lastChild], and [apply_signature]. *)
Record Remote : Type := MkRemote {
  reply_body : World → string → string → string → string → list pyval
               → outcome pyval;
  property_value : World → string → string → string → string → string
                   → outcome pyval;
  parseString_lastChild : pyval → outcome node;
  apply_signature : string → list pyval → outcome (list pyval);
}.

(** *** Objects *)

(** An instance of the class that [meta_interface(interface)] makes. *)
Record SDInterface : Type := MkSDInterface {
  interface_name : string;
  xml_dom : node;
  properties : list string;
  methods : list string;
  _properties_xml : gmap string node;
  _methods_xml : gmap string node;
}.

(** A method that a subclass of [SDObject] defines, already bound to its
    object, with the attribute the decorator puts on it. *)
Record pymethod : Type := MkMethod {
  overwrite_interfaces : list string;
  func : string → list pyval → M World pyval;
}.

(** [set_attrs] holds what [load] adds with [setattr]; [cls_methods] the
    methods of the object's class. *)
Record SDObject : Type := MkSDObject {
  destination : string;
  path : string;
  _interfaces : gmap string SDInterface;
  _loaded : bool;
  _bus : option DBus;
  set_attrs : gmap string SDInterface;
  cls_methods : gmap string pymethod;
}.

(** What [getattr(sd_object, name, None)] can find. *)
Inductive attribute : Type :=
| AData
| AInterface (i : SDInterface)
| AMethod (m : pymethod).

Definition instance_fields : list string :=
  ["destination"; "path"; "_interfaces"; "_loaded"; "_bus"].

(** Attributes of the instance come before those of its class. *)
Definition getattr (o : SDObject) (attname : string) : option attribute :=
  match set_attrs o !! attname with
  | Some i => Some (AInterface i)
  | None =>
      if bool_decide (attname ∈ instance_fields) then Some AData
      else AMethod <$> cls_methods o !! attname
  end.

Definition callable (a : option attribute) : bool :=
  match a with
  | Some (AMethod _) => true
  | _ => false
  end.

(** [getattr(overwrite_method, 'overwrite_interfaces', [])] *)
Definition getattr_overwrite_interfaces (a : option attribute) : list string :=
  match a with
  | Some (AMethod m) => overwrite_interfaces m
  | _ => []
  end.

(** [a(interface_name, *args)] *)
Definition call_attribute (a : option attribute) (interface_name : string)
    (args : list pyval) : M World pyval :=
  match a with
  | Some (AMethod m) => func m interface_name args
  | _ => raise (TypeError "object is not callable")
  end.

(** [s[n:]] *)
Fixpoint string_from (n : nat) (s : string) : string :=
  match n, s with
  | O, _ => s
  | S n', String _ s' => string_from n' s'
  | S _, EmptyString => EmptyString
  end.

Section base.
Context (R : Remote).

Definition bus_open (bus : DBus) : M World unit :=
  λ w, (Ok tt, w ++ [BusOpen bus])%list.

Definition bus_call_method (bus : DBus)
    (destination path interface member : string) (args : list pyval)
    : M World pyval :=
  λ w, (reply_body R w destination path interface member args,
        w ++ [CallMethod bus destination path interface member args])%list.

Definition bus_get_property (bus : DBus)
    (destination path interface name type : string) : M World pyval :=
  λ w, (property_value R w destination path interface name type,
        w ++ [GetProperty bus destination path interface name type])%list.

(** [SDObject.bus_context] around the body of a [with] statement. *)
Definition bus_context {A} (self : SDObject) (body : DBus → M World A)
    : M World A :=
  match _bus self with
  | None =>
      bus_open Fresh ;;;
      finally (body Fresh) (λ w, w ++ [BusClose Fresh])%list
  | Some bus => body bus
  end.

Definition get_introspect_xml (self : SDObject) : M World node :=
  bus_context self (λ bus,
    body <~ bus_call_method bus (destination self) (path self)
              "org.freedesktop.DBus.Introspectable" "Introspect" [] ;;
    lift (parseString_lastChild R body)).

(** The loop body of [_MetaInterface.__new__]. *)
Definition add_element (cls : SDInterface) (element : node) : SDInterface :=
  if String.eqb (tagName element) "property" then
    let property_name := getAttribute element "name" in
    MkSDInterface (interface_name cls) (xml_dom cls)
      (properties cls ++ [property_name])%list (methods cls)
      (<[property_name := element]> (_properties_xml cls)) (_methods_xml cls)
  else if String.eqb (tagName element) "method" then
    let method_name := getAttribute element "name" in
    MkSDInterface (interface_name cls) (xml_dom cls)
      (properties cls) (methods cls ++ [method_name])%list
      (_properties_xml cls) (<[method_name := element]> (_methods_xml cls))
  else cls.

(** [meta_interface(interface)(sd_object, interface_name)]. The object is
    passed to the methods below instead of being kept in the interface.
    The four bookkeeping entries are fields of their own here, while the
    code keeps them in the dictionary that also takes the members: this is
    the proxy of the code for an interface none of whose members is named
    like an entry of the class ([plain_members] below). *)
Definition meta_interface (interface : node) (interface_name : string)
    : SDInterface :=
  let elements :=
    filter (λ n, nodeType n = 1%Z) (childNodes interface) in
  foldl add_element
    (MkSDInterface interface_name interface [] [] ∅ ∅) elements.

(** The loop body of [SDObject.load]. The shortcuts go to [set_attrs]
    while [setattr] puts them among the attributes of the object: this is
    the object of the code for shortcuts that are not named like one of
    its attributes ([plain_document] below). *)
Definition load_node (decoded_destination : string) (self : SDObject)
    (interface : node) : SDObject :=
  if negb (nodeType interface =? ELEMENT_NODE)%Z then self
  else if negb (String.eqb (tagName interface) "interface") then self
  else
    let interface_name := getAttribute interface "name" in
    let proxy := meta_interface interface interface_name in
    let _interfaces := <[interface_name := proxy]> (_interfaces self) in
    let set_attrs :=
      if String.prefix decoded_destination interface_name then
        <[string_from (String.length decoded_destination + 1) interface_name
          := proxy]> (set_attrs self)
      else set_attrs self in
    MkSDObject (destination self) (path self) _interfaces (_loaded self)
      (_bus self) set_attrs (cls_methods self).

(** [SDObject.load] *)
Definition load (self : SDObject) (force : bool) : M World SDObject :=
  if _loaded self && negb force then ret self
  else
    unit_xml <~ get_introspect_xml self ;;
    let decoded_destination := destination self in
    ret (foldl (load_node decoded_destination) self (childNodes unit_xml)).

(** [SDObject.__init__] for a class with the methods [cls_methods]. *)
Definition SDObject_init (cls_methods : gmap string pymethod)
    (destination path : string) (bus : option DBus) (_autoload : bool)
    : M World SDObject :=
  let self := MkSDObject destination path ∅ false bus ∅ cls_methods in
  if _autoload then load self false else ret self.

(** [SDObject.__enter__] *)
Definition __enter__ (self : SDObject) : M World SDObject :=
  load self false.

(** [d[k]] *)
Definition getitem (d : gmap string node) (k : string) : M World node :=
  match d !! k with
  | Some n => ret n
  | None => raise (KeyError k)
  end.

(** [SDInterface._get_property] *)
Definition _get_property (self : SDInterface) (sd_object : SDObject)
    (property_name : string) : M World pyval :=
  prop <~ getitem (_properties_xml self) property_name ;;
  let prop_type := getAttribute prop "type" in
  bus_context sd_object (λ bus,
    bus_get_property bus (destination sd_object) (path sd_object)
      (interface_name self) property_name prop_type).


(** [any(block_chars.finditer(arg))] for [block_chars = re.compile(r'v|\{')] *)
Definition block_chars (arg : string) : bool :=
  existsb (λ c, Ascii.eqb c "v" || Ascii.eqb c "{") (list_ascii_of_string arg).

(** [SDInterface._auto_call_dbus_method] *)
Definition _auto_call_dbus_method (self : SDInterface) (sd_object : SDObject)
    (method_name : string) (in_args : list string) (args : list pyval)
    : M World pyval :=
  if negb (length args =? length in_args)%nat then
    raise (TypeError ("method " +:+ method_name +:+ " require "
                      +:+ pretty (length in_args) +:+ " arguments, "
                      +:+ pretty (length args) +:+ " supplied"))
  else if existsb block_chars in_args then
    raise (NotImplementedError
             "still not implemented methods with complex arguments")
  else
    let in_signature := String.concat "" in_args in
    call_args <~ lift (apply_signature R in_signature args) ;;
    bus_context sd_object (λ bus,
      bus_call_method bus (destination sd_object) (path sd_object)
        (interface_name self) method_name call_args).

(** The input signatures that [_call_method] reads off a method element. *)
Definition in_args_of (meth : node) : list string :=
  map (λ arg, getAttribute arg "type")
    (filter (λ arg, (nodeType arg =? ELEMENT_NODE)%Z
                    && String.eqb (getAttribute arg "direction") "in" = true)
       (childNodes meth)).

(** Lines 138-147 of [_call_method]: the default method. *)
Definition _call_default (self : SDInterface) (sd_object : SDObject)
    (method_name : string) (args : list pyval) : M World pyval :=
  meth <~ getitem (_methods_xml self) method_name ;;
  _auto_call_dbus_method self sd_object method_name (in_args_of meth) args.

(** [SDInterface._call_method] *)
Definition _call_method (self : SDInterface) (sd_object : SDObject)
    (method_name : string) (args : list pyval) : M World pyval :=
  let overwrite_method := getattr sd_object method_name in
  let overwrite_interfaces := getattr_overwrite_interfaces overwrite_method in
  if callable overwrite_method
     && bool_decide (interface_name self ∈ overwrite_interfaces)
  then call_attribute overwrite_method (interface_name self) args
  else _call_default self sd_object method_name args.

End base.

(** [overwrite_interface_method(interface)(func)] *)
Definition overwrite_interface_method (interface : string) (f : pymethod)
    : pymethod :=
  MkMethod (overwrite_interfaces f ++ [interface])%list (func f).

End Base.

(** ** run.py *)

Module Run.

(** *** CExit *)

(** One registered entry [(meth, args, kwargs)]. *)
Record entry (W : Type) : Type := Entry {
  call : list pyval → list (string * pyval) → M W unit;
  args : list pyval;
  kwargs : list (string * pyval);
}.
Arguments Entry {W} call args kwargs.
Arguments call {W} e.
Arguments args {W} e.
Arguments kwargs {W} e.

Record CExit (W : Type) : Type := MkCExit { pipe : list (entry W) }.
Arguments MkCExit {W} pipe.
Arguments pipe {W} c.

(** [CExit.__init__] *)
Definition CExit_init {W} : CExit W := MkCExit [].

(** [CExit.register] *)
Definition register {W} (self : CExit W)
    (meth : list pyval → list (string * pyval) → M W unit)
    (args : list pyval) (kwargs : list (string * pyval)) : CExit W :=
  MkCExit (pipe self ++ [Entry meth args kwargs])%list.

(** [CExit.__exit__]: the result is [None], so an exception of the body
    of the [with] statement is not swallowed. *)
Definition __exit__ {W} (self : CExit W) : M W unit :=
  for_each (reverse (pipe self)) (λ e, call e (args e) (kwargs e)).

(** *** get_fno *)

(** A stream handle as [run] can receive it. A file object answers
    [fileno()] with an integer descriptor. *)
Inductive handle : Type :=
| HNone
| HInt (n : Z)
| HFile (fileno : Z)
| HOther.

Definition get_fno (obj : handle) : outcome (option Z) :=
  match obj with
  | HNone => Ok None
  | HInt n => Ok (Some n)
  | HFile fileno => Ok (Some fileno)
  | HOther => Raise (TypeError "Expected None, int or fileobject with fileno method")
  end.

(** The handle that a result of [get_fno] is when it is passed on. *)
Definition handle_of (fno : option Z) : handle :=
  match fno with None => HNone | Some n => HInt n end.

(** *** run *)

(** What [run] obtains from the platform it runs on. Each facility is
    used at most once per call, so its answer is a value. [W] is the world
    the registered cleanup actions act on. Calls made for their effect on
    the terminal only ([tty.setraw], the two [fcntl.ioctl]) have no part in
    what is submitted and are left out. *)
Record Platform (W : Type) : Type := MkPlatform {
  uuid4_hex : string;                       (* uuid.uuid4().hex *)
  openpty : Z * Z;                          (* ptylib.openpty() *)
  ttyname : Z → string;                     (* os.ttyname(fd).encode() *)
  machine_OpenPTY : string → Z * string;    (* Machine(machine).Machine.OpenPTY() *)
  getenv_TERM : option string;              (* os.getenv('TERM') *)
  tcgetattr : Z → pyval;                    (* tty.tcgetattr(fd) *)
  TCSAFLUSH : Z;                            (* tty.TCSAFLUSH *)
  monbus_get_fd : Z;                        (* monbus.get_fd() *)
  os_close : list pyval → list (string * pyval) → M W unit;
  tty_tcsetattr : list pyval → list (string * pyval) → M W unit;
  monbus_close : list pyval → list (string * pyval) → M W unit;
}.
Arguments uuid4_hex {W} p.
Arguments openpty {W} p.
Arguments ttyname {W} p.
Arguments machine_OpenPTY {W} p.
Arguments getenv_TERM {W} p.
Arguments tcgetattr {W} p.
Arguments TCSAFLUSH {W} p.
Arguments monbus_get_fd {W} p.
Arguments os_close {W} p.
Arguments tty_tcsetattr {W} p.
Arguments monbus_close {W} p.

(** The parameters of [run]. [env] is a dictionary whose order shows in
    the [Environment] property, hence an association list. *)
Record run_args : Type := MkArgs {
  cmd : list string;
  name : option string;
  user : option string;
  user_mode : bool;
  nice : option Z;
  runtime_max_sec : option Z;
  env : option (list (string * string));
  extra : option (gmap string pyval);
  cwd : option string;
  machine : option string;
  wait : bool;
  remain_after_exit : bool;
  pty : bool;
  pty_master : option Z;
  pty_path : option string;
  stdin : handle;
  stdout : handle;
  stderr : handle;
}.

(** Truth value of [None] or a [bytes] object. *)
Definition truthy_bytes (o : option string) : bool :=
  match o with
  | Some s => negb (String.eqb s "")
  | None => false
  end.

(** Truth value of [None] or an [int]. *)
Definition truthy_int (o : option Z) : bool :=
  match o with
  | Some n => negb (Z.eqb n 0)
  | None => false
  end.

Definition of_bytes (o : option string) : pyval :=
  match o with Some s => PBytes s | None => PNone end.

Definition of_int (o : option Z) : pyval :=
  match o with Some n => PInt n | None => PNone end.

(** [(runtime_max_sec or 0) * 10**6 or runtime_max_sec] *)
Definition runtime_max_usec (runtime_max_sec : option Z) : option Z :=
  let seconds := if truthy_int runtime_max_sec
                 then default 0 runtime_max_sec else 0 in
  let usec := seconds * 10 ^ 6 in
  if truthy_int (Some usec) then Some usec else runtime_max_sec.

(** [d.get(k, dflt)] on a dictionary kept in insertion order. *)
Fixpoint dict_get (d : list (string * string)) (k dflt : string) : string :=
  match d with
  | [] => dflt
  | (k', v) :: d' => if String.eqb k' k then v else dict_get d' k dflt
  end.

(** [d[k] = v]: a present key keeps its place, a new one goes last. *)
Fixpoint dict_set (d : list (string * string)) (k v : string)
    : list (string * string) :=
  match d with
  | [] => [(k, v)]
  | (k', v') :: d' =>
      if String.eqb k' k then (k, v) :: d' else (k', v') :: dict_set d' k v
  end.

(** [d.update({k1: v1, ...})] with the entries in the order written. *)
Definition update (d : gmap string pyval) (kvs : list (string * pyval))
    : gmap string pyval :=
  foldl (λ m kv, <[kv.1 := kv.2]> m) d kvs.

(** [[b'%s=%s' % (key, value) for key, value in env.items()] or None] *)
Definition Environment (env : list (string * string)) : pyval :=
  match env with
  | [] => PNone
  | _ => PList (map (λ kv, PBytes (kv.1 +:+ "=" +:+ kv.2)) env)
  end.

(** [{k: v for k, v in unit_properties.items() if v is not None}] *)
Definition drop_None (d : gmap string pyval) : gmap string pyval :=
  filter (λ kv, is_not_None kv.2 = true) d.

(** [get_fno(fd) if fd else fd], on a name already bound to a result of
    [get_fno]. *)
Definition descriptor (fd : option Z) : outcome (option Z) :=
  if truthy_int fd then get_fno (handle_of fd) else Ok fd.

(** [None not in (a, b)] *)
Definition both_set (a b : option Z) : bool :=
  match a, b with
  | Some _, Some _ => true
  | _, _ => false
  end.

(** What [run] has in hand when it calls
    [manager.Manager.StartTransientUnit(name, b'fail', unit_properties)]. *)
Record submission (W : Type) : Type := MkSubmission {
  unit_name : string;
  unit_mode : string;
  unit_properties : gmap string pyval;
  selectors : list Z;
  ctexit : CExit W;
}.
Arguments MkSubmission {W}.
Arguments unit_name {W} s.
Arguments unit_mode {W} s.
Arguments unit_properties {W} s.
Arguments selectors {W} s.
Arguments ctexit {W} s.

Section run.
Context {W : Type} (P : Platform W).

(** Lines 154-161: [if pty: ...]. The result is [pty_master], [pty_path]
    and the cleanup stack. *)
Definition acquire_pty (a : run_args) (ctexit : CExit W)
    : option Z * option string * CExit W :=
  if pty a then
    if truthy_bytes (machine a) then
      let '(pty_master, pty_path) := machine_OpenPTY P (default "" (machine a)) in
      (Some pty_master, Some pty_path, ctexit)
    else
      let '(pty_master, pty_follower) := openpty P in
      let pty_path := ttyname P pty_follower in
      (Some pty_master, Some pty_path,
       register ctexit (os_close P) [PInt pty_master] [])
  else (pty_master a, pty_path a, ctexit).

(** Lines 163-197: the stream routing. The result is [unit_properties],
    [env], [selectors] and the cleanup stack. *)
Definition route_streams (pty_master : option Z) (pty_path : option string)
    (stdin stdout stderr : option Z) (env : list (string * string))
    (ctexit : CExit W)
    : outcome (gmap string pyval * list (string * string) * list Z * CExit W) :=
  if truthy_bytes pty_path then
    let unit_properties := update ∅ [
      ("StandardInput", PBytes "tty");
      ("StandardOutput", PBytes "tty");
      ("StandardError", PBytes "tty");
      ("TTYPath", of_bytes pty_path)] in
    let '(selectors, ctexit) :=
      if both_set stdin pty_master then
        let fd := default 0%Z stdin in
        let stdin_attrs := tcgetattr P fd in
        ([fd],
         register ctexit (tty_tcsetattr P)
           [PInt fd; PInt (TCSAFLUSH P); stdin_attrs] [])
      else ([], ctexit) in
    let '(env, selectors) :=
      if both_set stdout pty_master then
        (if truthy_bytes (getenv_TERM P)
         then dict_set env "TERM"
                (dict_get env "TERM" (default "" (getenv_TERM P)))
         else env,
         (selectors ++ [default 0%Z pty_master])%list)
      else (env, selectors) in
    Ok (unit_properties, env, selectors, ctexit)
  else
    fd_in <~? descriptor stdin ;;
    fd_out <~? descriptor stdout ;;
    fd_err <~? descriptor stderr ;;
    Ok (update ∅ [
          ("StandardInputFileDescriptor", of_int fd_in);
          ("StandardOutputFileDescriptor", of_int fd_out);
          ("StandardErrorFileDescriptor", of_int fd_err)],
        env, [], ctexit).

(** [cmd[0]] *)
Definition cmd_0 (cmd : list string) : outcome string :=
  match cmd with
  | c :: _ => Ok c
  | [] => Raise (IndexError "list index out of range")
  end.

(** Lines 199-213: the properties computed from the other parameters, and
    [extra] merged over everything. This is the bag before the values that
    are [None] are dropped from it. *)
Definition compose (a : run_args) (name : string)
    (env : list (string * string)) (routing : gmap string pyval)
    : outcome (gmap string pyval) :=
  exe <~? cmd_0 (cmd a) ;;
  let unit_properties := update routing [
    ("Description", PBytes ("pystemd: " +:+ name));
    ("ExecStart",
     PList [PTuple [PBytes exe; PList (map PBytes (cmd a)); PBool false]]);
    ("RemainAfterExit", PBool (remain_after_exit a));
    ("WorkingDirectory", of_bytes (cwd a));
    ("User", of_bytes (user a));
    ("Nice", of_int (nice a));
    ("RuntimeMaxUSec", of_int (runtime_max_usec (runtime_max_sec a)));
    ("Environment", Environment env)] in
  Ok (default ∅ (extra a) ∪ unit_properties).

(** Lines 139-213 of [run]: the name, the property bag with [extra] merged
    in, the descriptors to select on and the cleanup stack. The bus and the
    manager proxy that the [with] statement opens are used only by the
    submission itself and do not appear here. *)
Definition assemble (a : run_args)
    : outcome (string * gmap string pyval * list Z * CExit W) :=
  let name :=
    if truthy_bytes (name a) then default "" (name a)
    else "pystemd" +:+ uuid4_hex P +:+ ".service" in
  stdin <~? get_fno (stdin a) ;;
  stdout <~? get_fno (stdout a) ;;
  stderr <~? get_fno (stderr a) ;;
  let env := default [] (env a) in
  let '(pty_master, pty_path, ctexit) := acquire_pty a CExit_init in
  routed <~? route_streams pty_master pty_path stdin stdout stderr env ctexit ;;
  let '(unit_properties, env, selectors, ctexit) := routed in
  unit_properties <~? compose a name env unit_properties ;;
  Ok (name, unit_properties, selectors, ctexit).

(** [run], up to the call that starts the transient unit: the result is
    what [StartTransientUnit] is called with, and what the wait loop and
    the exit of the [with] statement will work on. *)
Definition run (a : run_args) : outcome (submission W) :=
  assembled <~? assemble a ;;
  let '(name, unit_properties, selectors, ctexit) := assembled in
  let unit_properties := drop_None unit_properties in
  let '(selectors, ctexit) :=
    if wait a
    then ((selectors ++ [monbus_get_fd P])%list, register ctexit (monbus_close P) [] [])
    else (selectors, ctexit) in
  Ok (MkSubmission name "fail" unit_properties selectors ctexit).

End run.

End Run.

(** ** run.py: the wait loop *)

Module Wait.
Import Run.

Definition EXIT_SUBSTATES : list string := ["exited"; "failed"; "dead"].

(** [_wait_polling] is a number of seconds or [None]; only whether it is
    zero matters to the loop. *)
Definition truthy_number (x : option QArith_base.Q) : bool :=
  match x with
  | Some q => negb (QArith_base.Qeq_bool q (QArith_base.Qmake 0 1))
  | None => false
  end.

(** Lines 147-148: [if user_mode: _wait_polling = _wait_polling or 0.5] *)
Definition effective_polling (user_mode : bool)
    (_wait_polling : option QArith_base.Q) : option QArith_base.Q :=
  if user_mode then
    if truthy_number _wait_polling then _wait_polling
    else Some (QArith_base.Qmake 1 2)
  else _wait_polling.

(** What [os.read(fd, 1024)] gives. *)
Inductive read_result : Type :=
| Data (data : string)
| ReadOSError.

(** A message of [monbus.process()]: whether it is the empty one, its
    path, and the changed properties that a [PropertiesChanged] signal
    carries as the second element of its body. *)
Record message : Type := Message {
  is_empty : bool;
  get_path : string;
  body_1 : gmap string pyval;
}.

(** What one round of the loop observes. *)
Record round : Type := Round {
  ready : list Z;               (* _in, from select.select *)
  read_stdin : read_result;     (* os.read(stdin, 1024) *)
  read_pty : read_result;       (* os.read(pty_master, 1024) *)
  process : message;            (* monbus.process() *)
  MainPID : Z;                  (* unit.Service.MainPID *)
}.

(** The names that the loop reads. *)
Record locals : Type := Locals {
  stdin : option Z;
  stdout : option Z;
  pty_master : option Z;
  monitor_fd : Z;
  unit_path : string;
  _wait_polling : option QArith_base.Q;
}.

(** What the loop changes: the list it selects on, and the bytes written,
    oldest first. *)
Record state : Type := State {
  selectors : list Z;
  written : list (Z * string);
}.

Inductive step : Type :=
| Break
| Continue.

(** [fd in _in] for a name that is a descriptor or [None] *)
Definition is_ready (fd : option Z) (_in : list Z) : bool :=
  match fd with
  | Some n => bool_decide (n ∈ _in)
  | None => false
  end.

(** [os.write(fd, data)]: [None] for a descriptor is a [TypeError]; a write
    to a descriptor is recorded and taken to succeed. *)
Definition os_write (fd : option Z) (data : string) : M state unit :=
  match fd with
  | Some n => λ st, (Ok tt, State (selectors st) (written st ++ [(n, data)])%list)
  | None => raise (TypeError "an integer is required (got type NoneType)")
  end.

(** [l.remove(x)] *)
Fixpoint list_remove (x : Z) (l : list Z) : option (list Z) :=
  match l with
  | [] => None
  | y :: l' =>
      if bool_decide (y = x) then Some l' else cons y <$> list_remove x l'
  end.

(** [selectors.remove(fd)] *)
Definition selectors_remove (fd : option Z) : M state unit :=
  λ st, match fd with
        | Some n =>
            match list_remove n (selectors st) with
            | Some l => (Ok tt, State l (written st))
            | None => (Raise (OtherError "ValueError: list.remove(x): x not in list"), st)
            end
        | None => (Raise (OtherError "ValueError: list.remove(x): x not in list"), st)
        end.

(** [x in EXIT_SUBSTATES] for [x = m.body[1].get(b'SubState')] *)
Definition in_EXIT_SUBSTATES (x : option pyval) : bool :=
  match x with
  | Some (PBytes s) => bool_decide (s ∈ EXIT_SUBSTATES)
  | _ => false
  end.

(** Lines 256-269: the monitoring message and the fallback. *)
Definition watch (l : locals) (r : round) : step :=
  let fallback :=
    if truthy_number (_wait_polling l)
       && match ready r with [] => true | _ => false end
       && (MainPID r =? 0)%Z
    then Break else Continue in
  if bool_decide (monitor_fd l ∈ ready r) then
    let m := process r in
    if is_empty m then Continue
    else if String.eqb (get_path m) (unit_path l)
            && in_EXIT_SUBSTATES (body_1 m !! "SubState")
    then Break
    else fallback
  else fallback.

(** Lines 241-269: one round of [while wait]. *)
Definition wait_round (l : locals) (r : round) : M state step :=
  (if is_ready (stdin l) (ready r) then
     match read_stdin r with
     | Data data => os_write (pty_master l) data
     | ReadOSError => raise (OtherError "OSError")
     end
   else ret tt) ;;;
  (if is_ready (pty_master l) (ready r) then
     match read_pty r with
     | ReadOSError => selectors_remove (pty_master l)
     | Data data => os_write (stdout l) data
     end
   else ret tt) ;;;
  ret (watch l r).

(** The loop over the rounds observed so far: [true] when it was left by a
    [break], [false] when it is still going. *)
Fixpoint wait_loop (l : locals) (rounds : list round) : M state bool :=
  match rounds with
  | [] => ret false
  | r :: rounds' =>
      s <~ wait_round l r ;;
      match s with
      | Break => ret true
      | Continue => wait_loop l rounds'
      end
  end.

End Wait.

(** * Properties *)

Local Open Scope list_scope.

(** ** Vocabulary of the statements *)

Module Keys.

(** The properties of the terminal mode. *)
Definition terminal : list string :=
  ["StandardInput"; "StandardOutput"; "StandardError"; "TTYPath"].

(** The properties of the descriptor mode. *)
Definition descriptor : list string :=
  ["StandardInputFileDescriptor"; "StandardOutputFileDescriptor";
   "StandardErrorFileDescriptor"].

End Keys.

(** [extra] names none of the keys [ks]. *)
Definition extra_avoids (a : Run.run_args) (ks : list string) : Prop :=
  ∀ k, k ∈ ks → default ∅ (Run.extra a) !! k = None.

(** The terminal paths that the platform hands out are not empty. *)
Definition tty_paths_nonempty {W} (P : Run.Platform W) : Prop :=
  Run.ttyname P (Run.openpty P).2 ≠ ""
  ∧ ∀ m, (Run.machine_OpenPTY P m).2 ≠ "".

(** The terminal path after lines 154-161 of [run]. *)
Definition resolved_pty_path {W} (P : Run.Platform W) (a : Run.run_args)
    : option string :=
  (Run.acquire_pty P a Run.CExit_init).1.2.

(** The routing properties that lines 163-197 of [run] put in the bag. *)
Definition routing_of {W} (P : Run.Platform W) (a : Run.run_args)
    (fi fo fe : option Z) : gmap string pyval :=
  if Run.truthy_bytes (resolved_pty_path P a) then
    Run.update ∅ [("StandardInput", PBytes "tty");
                  ("StandardOutput", PBytes "tty");
                  ("StandardError", PBytes "tty");
                  ("TTYPath", Run.of_bytes (resolved_pty_path P a))]
  else
    Run.update ∅ [("StandardInputFileDescriptor", Run.of_int fi);
                  ("StandardOutputFileDescriptor", Run.of_int fo);
                  ("StandardErrorFileDescriptor", Run.of_int fe)].

(** A platform and cleanup actions to evaluate [run] and [CExit] on: the
    world is the list of the resources released so far. *)
Module Demo.
Import Run.

Definition release : list pyval → list (string * pyval) → M (list pyval) unit :=
  λ args _ w, (Ok tt, (w ++ args)%list).

Definition broken : list pyval → list (string * pyval) → M (list pyval) unit :=
  λ _ _, raise (OtherError "release failed").

Definition platform : Platform (list pyval) := {|
  uuid4_hex := "0f8fad5bd9cb469fa16570867728950e";
  openpty := (7, 8)%Z;
  ttyname := λ _, "/dev/pts/3";
  machine_OpenPTY := λ _, (9%Z, "/dev/pts/9");
  getenv_TERM := Some "xterm";
  tcgetattr := λ _, PList [];
  TCSAFLUSH := 2;
  monbus_get_fd := 11;
  os_close := release;
  tty_tcsetattr := release;
  monbus_close := release;
|}.

(** [run(['/bin/echo', 'hi'])] *)
Definition echo : run_args := {|
  cmd := ["/bin/echo"; "hi"];
  name := None; user := None; user_mode := false; nice := None;
  runtime_max_sec := None; env := None; extra := None; cwd := None;
  machine := None; wait := false; remain_after_exit := false;
  pty := false; pty_master := None; pty_path := None;
  stdin := HNone; stdout := HNone; stderr := HNone;
|}.

Definition with_runtime (a : run_args) (sec : option Z) : run_args :=
  MkArgs (cmd a) (name a) (user a) (user_mode a) (nice a) sec (env a)
    (extra a) (cwd a) (machine a) (wait a) (remain_after_exit a) (pty a)
    (pty_master a) (pty_path a) (stdin a) (stdout a) (stderr a).

Definition with_cwd (a : run_args) (dir : option string) : run_args :=
  MkArgs (cmd a) (name a) (user a) (user_mode a) (nice a) (runtime_max_sec a)
    (env a) (extra a) dir (machine a) (wait a) (remain_after_exit a) (pty a)
    (pty_master a) (pty_path a) (stdin a) (stdout a) (stderr a).

Definition with_streams (a : run_args) (i o e : handle) : run_args :=
  MkArgs (cmd a) (name a) (user a) (user_mode a) (nice a) (runtime_max_sec a)
    (env a) (extra a) (cwd a) (machine a) (wait a) (remain_after_exit a)
    (pty a) (pty_master a) (pty_path a) i o e.

Definition with_terminal (a : run_args) (want : bool) (p : option string)
    (x : option (gmap string pyval)) : run_args :=
  MkArgs (cmd a) (name a) (user a) (user_mode a) (nice a) (runtime_max_sec a)
    (env a) x (cwd a) (machine a) (wait a) (remain_after_exit a)
    want (pty_master a) p (stdin a) (stdout a) (stderr a).

(** The submitted bag, empty when [run] raised before submitting. *)
Definition bag (r : outcome (submission (list pyval))) : gmap string pyval :=
  match r with
  | Ok s => unit_properties s
  | Raise _ => ∅
  end.

End Demo.

(** A remote object to evaluate the proxy on. Its first introspection
    document declares one interface; every later one declares three. *)
Module DemoBus.
Import Base.

Definition manager : node :=
  Element "interface" [("name", "svc.Manager")] [
    Text " ";
    Element "property" [("name", "Version"); ("type", "s"); ("access", "read")] [];
    Element "property" [("name", "LogLevel"); ("type", "s");
                        ("access", "readwrite")] [];
    Element "method" [("name", "GetUnit")] [
      Element "arg" [("type", "s"); ("direction", "in")] [];
      Element "arg" [("type", "o"); ("direction", "out")] []];
    Element "method" [("name", "StartTransientUnit")] [
      Element "arg" [("type", "s"); ("direction", "in")] [];
      Element "arg" [("type", "s"); ("direction", "in")] [];
      Element "arg" [("type", "a(sv)"); ("direction", "in")] []]].

Definition unit : node :=
  Element "interface" [("name", "svc.Unit")] [
    Element "method" [("name", "GetUnit")] [
      Element "arg" [("type", "s"); ("direction", "in")] []]].

Definition lookalike : node :=
  Element "interface" [("name", "svcX.Manager")] [].

Definition introspected (w : World) : bool :=
  existsb (λ e, match e with
                | CallMethod _ _ _ _ "Introspect" _ => true
                | _ => false
                end) w.

Definition remote : Remote := {|
  reply_body := λ w _ _ _ member args,
    if String.eqb member "Introspect"
    then Ok (PBytes (if introspected w then "later" else "first"))
    else Ok (PList args);
  property_value := λ _ _ _ _ _ _, Ok (PBytes "239");
  parseString_lastChild := λ body,
    match body with
    | PBytes "first" => Ok (Element "node" [] [manager])
    | PBytes "later" => Ok (Element "node" [] [manager; unit; lookalike])
    | _ => Raise (OtherError "ExpatError")
    end;
  apply_signature := λ _ args, Ok args;
|}.

Definition bus : DBus := Given 0.

Definition fetch : event :=
  CallMethod bus "svc" "/svc" "org.freedesktop.DBus.Introspectable"
    "Introspect" [].

(** A method of the object's class, before it is decorated. *)
Definition GetUnit : pymethod := {|
  overwrite_interfaces := [];
  func := λ interface_name args, ret (PTuple (PBytes interface_name :: args));
|}.

(** The class whose [GetUnit] is decorated with
    [@overwrite_interface_method('svc.Manager')]. *)
Definition cls : gmap string pymethod :=
  {["GetUnit" := overwrite_interface_method "svc.Manager" GetUnit]}.

(** The object just after [SDObject.__init__]. *)
Definition fresh : SDObject :=
  MkSDObject "svc" "/svc" ∅ false (Some bus) ∅ cls.

End DemoBus.

(** The object with the methods of another class. *)
Definition with_cls_methods (o : Base.SDObject)
    (ms : gmap string Base.pymethod) : Base.SDObject :=
  Base.MkSDObject (Base.destination o) (Base.path o) (Base._interfaces o)
    (Base._loaded o) (Base._bus o) (Base.set_attrs o) ms.

(** [arg] has the character [c]. *)
Definition has_char (c : ascii) (arg : string) : Prop :=
  c ∈ list_ascii_of_string arg.

(** The names that the elements with the tag [tag] declare in an interface
    element, in document order. *)
Definition declared_names (tag : string) (interface : Base.node)
    : list string :=
  map (λ e, Base.getAttribute e "name")
    (filter (λ e, Base.tagName e = tag) (Base.childNodes interface)).

(** The interface elements among [nodes] that have the name [iname]. *)
Definition interfaces_named (iname : string) (nodes : list Base.node)
    : list Base.node :=
  filter (λ n, Base.tagName n = "interface"
               ∧ Base.getAttribute n "name" = iname) nodes.


(** [pty_master] after lines 154-161 of [run]. *)
Definition resolved_pty_master {W} (P : Run.Platform W) (a : Run.run_args)
    : option Z :=
  (Run.acquire_pty P a Run.CExit_init).1.1.

(** The stream [fd] of the caller is forwarded through the terminal: there
    is a terminal path, a master side and the stream. *)
Definition forwarded {W} (P : Run.Platform W) (a : Run.run_args)
    (fd : option Z) : bool :=
  Run.truthy_bytes (resolved_pty_path P a)
  && Run.both_set fd (resolved_pty_master P a).

(** The keys of a dictionary kept in insertion order. *)
Definition keys (d : list (string * string)) : list string := d.*1.

(** One entry of the [Environment] property. *)
Definition assignment (kv : string * string) : pyval :=
  PBytes (kv.1 +:+ "=" +:+ kv.2).


(** The names that the wait loop of [run] reads, for a unit at [path]. *)
Definition loop_locals {W} (P : Run.Platform W) (a : Run.run_args)
    (fi fo : option Z) (path : string) (polling : option QArith_base.Q)
    : Wait.locals :=
  Wait.Locals fi fo (resolved_pty_master P a) (Run.monbus_get_fd P) path
    (Wait.effective_polling (Run.user_mode a) polling).

(** The descriptors of the caller, of the terminal and of the monitoring
    bus are different descriptors. *)
Definition distinct_descriptors (l : Wait.locals) : Prop :=
  Wait.stdin l ≠ Some (Wait.monitor_fd l)
  ∧ Wait.pty_master l ≠ Some (Wait.monitor_fd l)
  ∧ (is_Some (Wait.stdin l) → Wait.stdin l ≠ Wait.pty_master l).

(** A report of a final sub-state of the unit at [path]. *)
Definition reports_exit (m : Wait.message) (path : string) : Prop :=
  Wait.is_empty m = false ∧ Wait.get_path m = path
  ∧ ∃ sub, Wait.body_1 m !! "SubState" = Some (PBytes sub)
           ∧ sub ∈ Wait.EXIT_SUBSTATES.

(** Rounds to evaluate the wait loop on: a caller with [stdin=0] and
    [stdout=1], a terminal whose master side is 7 and a monitoring bus on
    11. *)
Module DemoWait.
Import Wait.

Definition path : string := "/org/freedesktop/systemd1/unit/a_2eservice".

Definition names : locals := Locals (Some 0%Z) (Some 1%Z) (Some 7%Z) 11 path None.

Definition exited : round :=
  Round [11%Z] (Data "") (Data "")
    (Message false path {["SubState" := PBytes "exited"]}) 4242.

Definition idle : round :=
  Round [] (Data "") (Data "") (Message true "" ∅) 0.

Definition typing : round :=
  Round [0%Z; 7%Z] (Data "ls") (Data "ls") (Message true "" ∅) 4242.

Definition hangup : round :=
  Round [7%Z] (Data "") ReadOSError (Message true "" ∅) 4242.

Definition start : state := State [0%Z; 7%Z; 11%Z] [].

(** [run(['/bin/echo', 'hi'], pty=True, stdin=0, stdout=1)] *)
Definition interactive : Run.run_args :=
  Demo.with_streams (Demo.with_terminal Demo.echo true None None)
    (Run.HInt 0) (Run.HInt 1) Run.HNone.

End DemoWait.

(** A byte string of ASCII characters: [decode()] and [six.b] give the
    same characters back. *)
Definition ascii_only (s : string) : bool :=
  forallb (λ c, (nat_of_ascii c <? 128)%nat) (list_ascii_of_string s).

(** The names that the class of a proxy and its instances use themselves:
    the bookkeeping entries of [_MetaInterface.__new__], the methods of
    [SDInterface] and the attributes that [SDInterface.__init__] sets. *)
Definition proxy_namespace : list string :=
  ["properties"; "methods"; "_properties_xml"; "_methods_xml";
   "_get_property"; "_set_property"; "_call_method";
   "_auto_call_dbus_method"; "sd_object"; "interface_name"].

(** The names that an [SDObject] uses itself. *)
Definition object_namespace : list string :=
  Base.instance_fields ++ ["load"; "bus_context"; "get_introspect_xml"].

(** A name that can be added to the namespace [ns] without a clash: it is
    not in [ns] and is none of the names with two leading underscores,
    which Python and [__xml_dom] use. *)
Definition free_name (ns : list string) (n : string) : bool :=
  ascii_only n && negb (String.prefix "__" n) && negb (bool_decide (n ∈ ns)).

(** An interface element whose members can all be added to the class of
    its proxy. *)
Definition plain_members (interface : Base.node) : Prop :=
  ∀ e, e ∈ Base.childNodes interface →
       Base.tagName e = "property" ∨ Base.tagName e = "method" →
       free_name proxy_namespace (Base.getAttribute e "name") = true.

(** A document that an object with the destination [d] can take in: the
    interfaces have plain members, and the shortcuts that [load] makes can
    be added to the object. *)
Definition plain_document (d : string) (unit_xml : Base.node) : Prop :=
  ascii_only d = true
  ∧ ∀ n, n ∈ Base.childNodes unit_xml → Base.tagName n = "interface" →
      ascii_only (Base.getAttribute n "name") = true
      ∧ plain_members n
      ∧ (String.prefix d (Base.getAttribute n "name") = true →
         free_name object_namespace
           (Base.string_from (String.length d + 1)
              (Base.getAttribute n "name")) = true).

(** ** run.py: CExit *)

Section cexit_facts.
Context {W : Type}.
Import Run.

Lemma for_each_app {A} (l1 l2 : list A) (f : A → M W unit) (w : W) :
  for_each (l1 ++ l2) f w =
  match for_each l1 f w with
  | (Ok _, w') => for_each l2 f w'
  | (Raise e, w') => (Raise e, w')
  end.
Proof.
  revert w. induction l1 as [|x l1 IH]; intros w; simpl.
  - reflexivity.
  - unfold bind. destruct (f x w) as [[[]|e] w']; [apply IH | reflexivity].
Qed.

Lemma exit_app (earlier later : list (entry W)) (w : W) :
  __exit__ (MkCExit (earlier ++ later)) w =
  match __exit__ (MkCExit later) w with
  | (Ok _, w') => __exit__ (MkCExit earlier) w'
  | (Raise e, w') => (Raise e, w')
  end.
Proof.
  unfold __exit__. simpl. rewrite reverse_app. apply for_each_app.
Qed.

(** C2, as the code has it. [__exit__] calls the registered actions in the
    reverse order of their registration, and it has no handler around the
    calls: once the actions registered after some point have returned, it
    goes on with the ones registered before; and when an action raises,
    that exception leaves [__exit__] at once, the world being the one the
    failing action left, so that no action registered earlier is run. *)
Theorem exit_stops_at_first_failure (earlier later : list (entry W)) (w w1 : W) :
  __exit__ (MkCExit later) w = (Ok tt, w1) →
  __exit__ (MkCExit (earlier ++ later)) w = __exit__ (MkCExit earlier) w1
  ∧ ∀ failing e w2,
      call failing (args failing) (kwargs failing) w1 = (Raise e, w2) →
      __exit__ (MkCExit (earlier ++ failing :: later)) w = (Raise e, w2).
Proof.
  intros Hlater. split.
  - rewrite exit_app, Hlater. reflexivity.
  - intros failing e w2 Hfail.
    rewrite exit_app.
    change (failing :: later) with ([failing] ++ later).
    rewrite exit_app, Hlater.
    unfold __exit__. simpl. unfold bind. rewrite Hfail. reflexivity.
Qed.

(** When every action is a release that returns, the resources are
    released in the reverse order of their registration. *)
Lemma exit_releases_in_reverse (release : list pyval → list (string * pyval) → M W unit)
    (log : W → pyval → W) (resources : list pyval) (w : W) :
  (∀ r w, release [r] [] w = (Ok tt, log w r)) →
  __exit__ (MkCExit (map (λ r, Entry release [r] []) resources)) w
  = (Ok tt, foldl log w (reverse resources)).
Proof.
  intros Hrel. revert w.
  induction resources as [|r resources IH]; intros w.
  - reflexivity.
  - change (map (λ r, Entry release [r] []) (r :: resources))
      with ([Entry release [r] []] ++ map (λ r, Entry release [r] []) resources).
    rewrite exit_app, IH, reverse_cons, foldl_app. simpl.
    unfold __exit__. simpl. unfold bind. rewrite Hrel. reflexivity.
Qed.

End cexit_facts.

(** C2 at a stack of two releases and an action that raises. *)
Lemma exit_stops_at_first_failure_witness :
  let earlier := [Run.Entry Demo.release [PInt 0] []] in
  let later := [Run.Entry Demo.release [PInt 2] []] in
  Run.__exit__ (Run.MkCExit later) [] = (Ok tt, [PInt 2])
  ∧ (Run.__exit__ (Run.MkCExit (earlier ++ later)) []
       = Run.__exit__ (Run.MkCExit earlier) [PInt 2]
     ∧ ∀ failing e w2,
         Run.call failing (Run.args failing) (Run.kwargs failing) [PInt 2]
           = (Raise e, w2) →
         Run.__exit__ (Run.MkCExit (earlier ++ failing :: later)) []
           = (Raise e, w2)).
Proof.
  intros earlier later. split.
  - reflexivity.
  - apply (exit_stops_at_first_failure earlier later [] [PInt 2]). reflexivity.
Defined.

(** C2 as stated fails: the action registered last raises, and the resource
    registered first is never released. *)
Lemma exit_abandons_earlier_actions :
  let stack :=
    Run.register
      (Run.register Run.CExit_init Demo.release [PBytes "pty_master"] [])
      Demo.broken [PBytes "monbus"] [] in
  Run.__exit__ stack [] = (Raise (OtherError "release failed"), []).
Proof. reflexivity. Qed.

(** ** run.py: the submitted bag *)

Section run_facts.
Context {W : Type} (P : Run.Platform W).
Import Run.

Lemma drop_None_lookup (d : gmap string pyval) (k : string) (v : pyval) :
  drop_None d !! k = Some v ↔ d !! k = Some v ∧ v ≠ PNone.
Proof.
  unfold drop_None. rewrite map_lookup_filter_Some. simpl.
  split; intros [Hk Hv]; split; try assumption.
  - intros ->. discriminate.
  - destruct v; try reflexivity. contradiction.
Qed.

Lemma drop_None_lookup_eq (d : gmap string pyval) (k : string) :
  drop_None d !! k =
  match d !! k with
  | Some PNone | None => None
  | Some v => Some v
  end.
Proof.
  destruct (d !! k) as [v|] eqn:Hd.
  - destruct v; try (apply drop_None_lookup; done).
    apply eq_None_not_Some. intros [v' Hv'].
    apply drop_None_lookup in Hv' as [Hv' Hne]. congruence.
  - apply eq_None_not_Some. intros [v' Hv'].
    apply drop_None_lookup in Hv' as [Hv' _]. congruence.
Qed.

Lemma runtime_max_usec_scaled (r : option Z) :
  runtime_max_usec r = (λ n, n * 1000000)%Z <$> r.
Proof.
  unfold runtime_max_usec.
  change (10 ^ 6)%Z with 1000000%Z.
  destruct r as [n|]; simpl; [|reflexivity].
  destruct (Z.eqb_spec n 0) as [->|Hn]; simpl; [reflexivity|].
  destruct (Z.eqb_spec (n * 1000000) 0) as [Hz|_]; simpl; [lia|reflexivity].
Qed.

(** The bag that [run] submits is the assembled one without its [None]s. *)
Lemma run_inv (a : run_args) (s : submission W) :
  run P a = Ok s →
  ∃ name composed sel cx,
    assemble P a = Ok (name, composed, sel, cx)
    ∧ unit_name s = name
    ∧ unit_properties s = drop_None composed.
Proof.
  unfold run. destruct (assemble P a) as [[[[name composed] sel] cx]|e]; simpl;
    [|discriminate].
  destruct (wait a); intros [= <-]; eauto 10.
Qed.

Lemma descriptor_id (fd : option Z) : descriptor fd = Ok fd.
Proof.
  unfold descriptor. destruct fd as [n|]; simpl; [|reflexivity].
  destruct (negb (Z.eqb n 0)); reflexivity.
Qed.

Lemma route_streams_routing (a : run_args) (fi fo fe : option Z)
    (env : list (string * string)) routing env' sel cx :
  route_streams P (acquire_pty P a CExit_init).1.1 (resolved_pty_path P a)
    fi fo fe env (acquire_pty P a CExit_init).2 = Ok (routing, env', sel, cx) →
  routing = routing_of P a fi fo fe.
Proof.
  unfold route_streams, routing_of.
  destruct (truthy_bytes (resolved_pty_path P a)).
  - destruct (both_set fi _), (both_set fo _); intros [= <- _ _ _]; reflexivity.
  - rewrite !descriptor_id. simpl. intros [= <- _ _ _]. reflexivity.
Qed.

(** What [assemble] returns when it returns. *)
Lemma assemble_inv (a : run_args) name composed sel cx :
  assemble P a = Ok (name, composed, sel, cx) →
  ∃ fi fo fe exe env',
    get_fno (stdin a) = Ok fi ∧ get_fno (stdout a) = Ok fo
    ∧ get_fno (stderr a) = Ok fe ∧ cmd_0 (cmd a) = Ok exe
    ∧ composed =
      default ∅ (extra a) ∪
      update (routing_of P a fi fo fe) [
        ("Description", PBytes ("pystemd: " +:+ name));
        ("ExecStart",
         PList [PTuple [PBytes exe; PList (map PBytes (cmd a)); PBool false]]);
        ("RemainAfterExit", PBool (remain_after_exit a));
        ("WorkingDirectory", of_bytes (cwd a));
        ("User", of_bytes (user a));
        ("Nice", of_int (nice a));
        ("RuntimeMaxUSec", of_int (runtime_max_usec (runtime_max_sec a)));
        ("Environment", Environment env')].
Proof.
  unfold assemble.
  destruct (get_fno (stdin a)) as [fi|] eqn:Hi; simpl; [|discriminate].
  destruct (get_fno (stdout a)) as [fo|] eqn:Ho; simpl; [|discriminate].
  destruct (get_fno (stderr a)) as [fe|] eqn:He; simpl; [|discriminate].
  pose proof (route_streams_routing a fi fo fe (default [] (env a))) as Hroute.
  unfold resolved_pty_path in Hroute.
  destruct (acquire_pty P a CExit_init) as [[pm pp] cx0]; simpl in Hroute.
  destruct (route_streams P pm pp fi fo fe (default [] (env a)) cx0)
    as [[[[routing env'] sel'] cx']|] eqn:Hr; simpl; [|discriminate].
  specialize (Hroute _ _ _ _ eq_refl). subst routing.
  unfold compose.
  destruct (cmd_0 (cmd a)) as [exe|] eqn:Hc; simpl; [|discriminate].
  intros [= <- <- <- <-]. exists fi, fo, fe, exe, env'. done.
Qed.

(** The environment is the one computed property that an empty value
    unsets. *)
Lemma Environment_None (env : list (string * string)) :
  Environment env = PNone ↔ env = [].
Proof. destruct env; simpl; split; congruence. Qed.

Ltac map_lookup :=
  unfold update; simpl foldl;
  repeat (rewrite lookup_insert_ne by done);
  try rewrite lookup_insert_eq; try rewrite lookup_empty.

Ltac in_keys :=
  unfold Keys.terminal, Keys.descriptor; simpl; repeat constructor.

(** A key that [extra] does not name has the value [run] computed. *)
Lemma composed_lookup (a : run_args) (d : gmap string pyval) (k : string) :
  extra_avoids a [k] → (default ∅ (extra a) ∪ d) !! k = d !! k.
Proof.
  intros Hx. apply lookup_union_r, Hx. constructor.
Qed.

Lemma extra_avoids_elem (a : run_args) (ks : list string) (k : string) :
  extra_avoids a ks → k ∈ ks → extra_avoids a [k].
Proof.
  intros Hx Hk k' Hk'. apply Hx.
  apply list_elem_of_singleton in Hk'. by subst.
Qed.

Lemma resolved_pty_path_truthy (a : run_args) :
  tty_paths_nonempty P →
  truthy_bytes (resolved_pty_path P a) = pty a || truthy_bytes (pty_path a).
Proof.
  intros [Htty Hmachine]. unfold resolved_pty_path, acquire_pty.
  destruct (pty a); simpl; [|reflexivity].
  destruct (truthy_bytes (machine a)).
  - specialize (Hmachine (default "" (machine a))).
    destruct (machine_OpenPTY P _) as [fd p]; simpl in *.
    by destruct p.
  - destruct (openpty P) as [m f]; simpl in *.
    by destruct (ttyname P f).
Qed.

Lemma route_streams_returns pm pp fi fo fe env cx :
  ∃ r, route_streams P pm pp fi fo fe env cx = Ok r.
Proof.
  unfold route_streams. destruct (truthy_bytes pp).
  - destruct (both_set fi pm), (both_set fo pm); eauto.
  - rewrite !descriptor_id. simpl. eauto.
Qed.

(** [run] reaches the submission for handles that [get_fno] accepts and a
    command that is not empty. *)
Lemma run_returns (a : run_args) (fi fo fe : option Z) :
  get_fno (stdin a) = Ok fi → get_fno (stdout a) = Ok fo →
  get_fno (stderr a) = Ok fe → cmd a ≠ [] →
  ∃ s, run P a = Ok s.
Proof.
  intros Hi Ho He Hc. unfold run, assemble. rewrite Hi, Ho, He. simpl.
  destruct (acquire_pty P a CExit_init) as [[pm pp] cx0].
  destruct (route_streams_returns pm pp fi fo fe (default [] (env a)) cx0)
    as [[[[routing env'] sel] cx] ->].
  simpl. unfold compose. destruct (cmd a) as [|c l]; [done|]. simpl.
  destruct (wait a); eauto.
Qed.

(** [run] raises nothing but what [get_fno] and [cmd[0]] raise. *)
Lemma run_raises (a : run_args) (e : exn) :
  run P a = Raise e →
  get_fno (stdin a) = Raise e ∨ get_fno (stdout a) = Raise e
  ∨ get_fno (stderr a) = Raise e ∨ cmd_0 (cmd a) = Raise e.
Proof.
  unfold run, assemble.
  destruct (get_fno (stdin a)) as [fi|]; simpl; [|intros [= <-]; auto].
  destruct (get_fno (stdout a)) as [fo|]; simpl; [|intros [= <-]; auto].
  destruct (get_fno (stderr a)) as [fe|]; simpl; [|intros [= <-]; auto].
  destruct (acquire_pty P a CExit_init) as [[pm pp] cx0].
  destruct (route_streams_returns pm pp fi fo fe (default [] (env a)) cx0)
    as [[[[routing env'] sel] cx] ->].
  simpl. unfold compose.
  destruct (cmd_0 (cmd a)); simpl; [|intros [= <-]; auto].
  destruct (wait a); discriminate.
Qed.

(** C3, as the code has it. When [extra] does not name [RuntimeMaxUSec],
    the submitted value is the number of seconds times 1,000,000 whenever
    [runtime_max_sec] is a number: 5 gives 5,000,000 and 0 gives 0, which is
    submitted because it is not [None]; the property is left out only when
    [runtime_max_sec] is [None]. *)
Theorem run_RuntimeMaxUSec (a : run_args) (s : submission W) :
  extra_avoids a ["RuntimeMaxUSec"] →
  run P a = Ok s →
  unit_properties s !! "RuntimeMaxUSec"
  = (λ n, PInt (n * 1000000)) <$> runtime_max_sec a.
Proof.
  intros Hx Hrun.
  apply run_inv in Hrun as (name & composed & sel & cx & Ha & _ & ->).
  apply assemble_inv in Ha as (fi & fo & fe & exe & env' & _ & _ & _ & _ & ->).
  rewrite drop_None_lookup_eq, composed_lookup by assumption.
  map_lookup. rewrite runtime_max_usec_scaled.
  destruct (runtime_max_sec a); reflexivity.
Qed.

(** C4, as the code has it. The submitted bag is the assembled bag (the
    computed properties with [extra] merged over them) without the keys
    whose value is [None]: a key is submitted with a value exactly when the
    assembled bag gives it that value and the value is not [None]. A value
    that is set but empty or zero is submitted. *)
Theorem run_drops_None_only (a : run_args) (s : submission W) :
  run P a = Ok s →
  ∃ name composed sel cx,
    assemble P a = Ok (name, composed, sel, cx)
    ∧ ∀ k v, unit_properties s !! k = Some v
             ↔ composed !! k = Some v ∧ v ≠ PNone.
Proof.
  intros Hrun.
  apply run_inv in Hrun as (name & composed & sel & cx & Ha & _ & ->).
  exists name, composed, sel, cx. split; [assumption|].
  intros k v. apply drop_None_lookup.
Qed.

(** C9, as the code has it. On a platform whose terminal paths are not
    empty and for an [extra] that names no stream-routing key: when a
    terminal is requested, the bag has the three streams set to [tty] and
    the terminal path, and no descriptor key, whatever descriptors were
    passed; otherwise it has no terminal key, and a descriptor key exactly
    for each stream that was passed, with the descriptor [get_fno] gave. *)
Theorem run_routing_mode (a : run_args) (s : submission W) :
  tty_paths_nonempty P →
  extra_avoids a (Keys.terminal ++ Keys.descriptor) →
  run P a = Ok s →
  let bag := unit_properties s in
  if pty a || truthy_bytes (pty_path a) then
    bag !! "StandardInput" = Some (PBytes "tty")
    ∧ bag !! "StandardOutput" = Some (PBytes "tty")
    ∧ bag !! "StandardError" = Some (PBytes "tty")
    ∧ bag !! "TTYPath" = PBytes <$> resolved_pty_path P a
    ∧ is_Some (resolved_pty_path P a)
    ∧ ∀ k, k ∈ Keys.descriptor → bag !! k = None
  else
    (∀ k, k ∈ Keys.terminal → bag !! k = None)
    ∧ ∃ fi fo fe,
        get_fno (stdin a) = Ok fi ∧ get_fno (stdout a) = Ok fo
        ∧ get_fno (stderr a) = Ok fe
        ∧ bag !! "StandardInputFileDescriptor" = PInt <$> fi
        ∧ bag !! "StandardOutputFileDescriptor" = PInt <$> fo
        ∧ bag !! "StandardErrorFileDescriptor" = PInt <$> fe.
Proof.
  intros Hpaths Hx Hrun bag. subst bag.
  apply run_inv in Hrun as (name & composed & sel & cx & Ha & _ & ->).
  apply assemble_inv in Ha as (fi & fo & fe & exe & env' & Hi & Ho & He & _ & ->).
  assert (Hget : ∀ k, k ∈ Keys.terminal ++ Keys.descriptor →
    drop_None (default ∅ (extra a) ∪ update (routing_of P a fi fo fe) [
        ("Description", PBytes ("pystemd: " +:+ name));
        ("ExecStart",
         PList [PTuple [PBytes exe; PList (map PBytes (cmd a)); PBool false]]);
        ("RemainAfterExit", PBool (remain_after_exit a));
        ("WorkingDirectory", of_bytes (cwd a));
        ("User", of_bytes (user a));
        ("Nice", of_int (nice a));
        ("RuntimeMaxUSec", of_int (runtime_max_usec (runtime_max_sec a)));
        ("Environment", Environment env')]) !! k
    = match routing_of P a fi fo fe !! k with
      | Some PNone | None => None
      | Some v => Some v
      end).
  { intros k Hk. rewrite drop_None_lookup_eq, composed_lookup
      by (eapply extra_avoids_elem; eassumption).
    unfold Keys.terminal, Keys.descriptor in Hk. simpl in Hk.
    repeat (apply elem_of_cons in Hk as [->|Hk]; [by map_lookup|]).
    by apply elem_of_nil in Hk. }
  rewrite <- (resolved_pty_path_truthy a Hpaths).
  destruct (truthy_bytes (resolved_pty_path P a)) eqn:Htruthy.
  - destruct (resolved_pty_path P a) as [p|] eqn:Hp; [|discriminate].
    repeat split;
      try (rewrite Hget by in_keys;
           unfold routing_of; rewrite Hp, Htruthy; by map_lookup).
    + by eexists.
    + intros k Hk. rewrite Hget by (apply elem_of_app; by right).
      unfold routing_of. rewrite Hp, Htruthy.
      unfold Keys.descriptor in Hk.
      repeat (apply elem_of_cons in Hk as [->|Hk]; [by map_lookup|]).
      by apply elem_of_nil in Hk.
  - split.
    + intros k Hk. rewrite Hget by (apply elem_of_app; by left).
      unfold routing_of. rewrite Htruthy.
      unfold Keys.terminal in Hk.
      repeat (apply elem_of_cons in Hk as [->|Hk]; [by map_lookup|]).
      by apply elem_of_nil in Hk.
    + exists fi, fo, fe. repeat split; try assumption;
        (rewrite Hget by in_keys);
        unfold routing_of; rewrite Htruthy; map_lookup;
        [by destruct fi | by destruct fo | by destruct fe].
Qed.

(** C10. [get_fno] returns [None] for [None], the integer for an integer
    and [obj.fileno()] for a file object; applied to its own result it
    returns that result again; and [run] with the three streams left to
    [None] raises no [TypeError]. *)
Theorem get_fno_accepts_None :
  get_fno HNone = Ok None
  ∧ (∀ n, get_fno (HInt n) = Ok (Some n))
  ∧ (∀ fileno, get_fno (HFile fileno) = Ok (Some fileno))
  ∧ (∀ obj fno, get_fno obj = Ok fno → get_fno (handle_of fno) = Ok fno)
  ∧ (∀ a, stdin a = HNone → stdout a = HNone → stderr a = HNone →
          ∀ msg, run P a ≠ Raise (TypeError msg)).
Proof.
  repeat split.
  - intros [| n | fileno |] fno [= <-]; reflexivity.
  - intros a Hi Ho He msg Hrun.
    apply run_raises in Hrun. rewrite Hi, Ho, He in Hrun.
    destruct Hrun as [H|[H|[H|H]]]; try discriminate.
    destruct (cmd a); discriminate.
Qed.

End run_facts.

(** C3 at [runtime_max_sec=5]: 5,000,000 is submitted. *)
Lemma run_RuntimeMaxUSec_witness :
  let a := Demo.with_runtime Demo.echo (Some 5%Z) in
  extra_avoids a ["RuntimeMaxUSec"]
  ∧ ∃ s, Run.run Demo.platform a = Ok s
         ∧ Run.unit_properties s !! "RuntimeMaxUSec" = Some (PInt 5000000).
Proof.
  intros a.
  assert (Hx : extra_avoids a ["RuntimeMaxUSec"]) by (intros k _; reflexivity).
  split; [exact Hx|].
  destruct (Run.run Demo.platform a) as [s|e] eqn:Hrun.
  - exists s. split; [reflexivity|].
    exact (run_RuntimeMaxUSec Demo.platform a s Hx Hrun).
  - vm_compute in Hrun. discriminate.
Defined.

(** C3 as stated fails at [runtime_max_sec=0]: the property is submitted,
    with the value 0. *)
Lemma run_submits_zero_runtime :
  Demo.bag (Run.run Demo.platform (Demo.with_runtime Demo.echo (Some 0%Z)))
    !! "RuntimeMaxUSec" = Some (PInt 0).
Proof. vm_compute. reflexivity. Qed.

(** C4 at [run(['/bin/echo', 'hi'])]: [User] is [None] and is dropped. *)
Lemma run_drops_None_only_witness :
  ∃ s, Run.run Demo.platform Demo.echo = Ok s
       ∧ ∃ name composed sel cx,
           Run.assemble Demo.platform Demo.echo = Ok (name, composed, sel, cx)
           ∧ ∀ k v, Run.unit_properties s !! k = Some v
                    ↔ composed !! k = Some v ∧ v ≠ PNone.
Proof.
  destruct (Run.run Demo.platform Demo.echo) as [s|e] eqn:Hrun.
  - exists s. split; [reflexivity|].
    exact (run_drops_None_only Demo.platform Demo.echo s Hrun).
  - vm_compute in Hrun. discriminate.
Defined.

(** C4 as stated fails at [cwd=b'']: the empty working directory is set,
    and it is submitted. *)
Lemma run_submits_empty_value :
  Demo.bag (Run.run Demo.platform (Demo.with_cwd Demo.echo (Some "")))
    !! "WorkingDirectory" = Some (PBytes "").
Proof. vm_compute. reflexivity. Qed.

(** C9 at [pty=True, stdout=1]: the streams are routed to the terminal and
    no descriptor is submitted. *)
Lemma run_routing_mode_witness :
  let a := Demo.with_streams (Demo.with_terminal Demo.echo true None None)
             Run.HNone (Run.HInt 1) Run.HNone in
  tty_paths_nonempty Demo.platform
  ∧ extra_avoids a (Keys.terminal ++ Keys.descriptor)
  ∧ ∃ s, Run.run Demo.platform a = Ok s
         ∧ Run.unit_properties s !! "StandardOutput" = Some (PBytes "tty")
         ∧ Run.unit_properties s !! "TTYPath" = Some (PBytes "/dev/pts/3")
         ∧ Run.unit_properties s !! "StandardOutputFileDescriptor" = None.
Proof.
  intros a.
  assert (Hp : tty_paths_nonempty Demo.platform)
    by (split; [discriminate | intros m; discriminate]).
  assert (Hx : extra_avoids a (Keys.terminal ++ Keys.descriptor))
    by (intros k _; reflexivity).
  split; [exact Hp|]. split; [exact Hx|].
  destruct (Run.run Demo.platform a) as [s|e] eqn:Hrun.
  - exists s. split; [reflexivity|].
    destruct (run_routing_mode Demo.platform a s Hp Hx Hrun)
      as (_ & Hout & _ & Htty & _ & Hfd).
    split; [exact Hout|]. split; [exact Htty|].
    apply Hfd. unfold Keys.descriptor. repeat constructor.
  - vm_compute in Hrun. discriminate.
Defined.

(** C9 as stated fails when [extra] brings a descriptor key along with a
    terminal: both modes are submitted. *)
Lemma run_extra_adds_descriptor :
  let a := Demo.with_terminal Demo.echo false (Some "/dev/pts/5")
             (Some {["StandardOutputFileDescriptor" := PInt 1]}) in
  Demo.bag (Run.run Demo.platform a) !! "StandardOutput" = Some (PBytes "tty")
  ∧ Demo.bag (Run.run Demo.platform a) !! "StandardOutputFileDescriptor"
    = Some (PInt 1).
Proof. split; vm_compute; reflexivity. Qed.

(** C10 at a file object and at [run(['/bin/echo', 'hi'])]. *)
Lemma get_fno_accepts_None_witness :
  Run.get_fno (Run.handle_of (Some 4%Z)) = Ok (Some 4%Z)
  ∧ ∀ msg, Run.run Demo.platform Demo.echo ≠ Raise (TypeError msg).
Proof.
  destruct (get_fno_accepts_None Demo.platform) as (_ & _ & Hfile & Hidem & Hrun).
  split.
  - exact (Hidem (Run.HFile 4) (Some 4%Z) (Hfile 4%Z)).
  - exact (Hrun Demo.echo eq_refl eq_refl eq_refl).
Defined.

(** ** base.py: load *)

Section load_facts.
Context (R : Base.Remote).
Import Base.

Lemma load_node_loaded (d : string) (self : SDObject) (interface : node) :
  _loaded (load_node d self interface) = _loaded self.
Proof.
  unfold load_node.
  destruct (negb _); [reflexivity|]. destruct (negb _); reflexivity.
Qed.

Lemma foldl_load_node_loaded (d : string) (nodes : list node) (self : SDObject) :
  _loaded (foldl (load_node d) self nodes) = _loaded self.
Proof.
  revert self. induction nodes as [|n nodes IH]; intros self; simpl.
  - reflexivity.
  - rewrite IH. apply load_node_loaded.
Qed.

(** [load] never sets the flag that its first line tests. *)
Lemma load_keeps_loaded (self self' : SDObject) (force : bool) (w w' : World) :
  load R self force w = (Ok self', w') → _loaded self' = _loaded self.
Proof.
  unfold load. destruct (_loaded self && negb force).
  - intros [= <- _]. reflexivity.
  - unfold bind. destruct (get_introspect_xml R self w) as [[unit_xml|e] w1].
    + intros [= <- _]. apply foldl_load_node_loaded.
    + discriminate.
Qed.

(** The introspection call that [load] makes on a borrowed bus. *)
Lemma load_fetches (self : SDObject) (force : bool) (w : World) (bus : DBus) :
  _loaded self = false → _bus self = Some bus →
  (load R self force w).2 =
  w ++ [CallMethod bus (destination self) (path self)
          "org.freedesktop.DBus.Introspectable" "Introspect" []].
Proof.
  intros Hl Hb. unfold load. rewrite Hl. simpl.
  unfold get_introspect_xml, bus_context. rewrite Hb.
  unfold bind, bus_call_method, lift.
  destruct (reply_body R w _ _ _ _ _) as [body|e]; [|reflexivity].
  destruct (parseString_lastChild R body); reflexivity.
Qed.

End load_facts.

(** C1 on the code: an object made by [SDObject.__init__] and loaded twice
    without [force]. The second [load] fetches the document again, the flag
    is still [False] after it, and the interfaces are those of the second
    document: [svc.Unit] is there only after the second call. *)
Theorem load_twice_fetches_twice :
  ∃ once twice,
    Base.load DemoBus.remote DemoBus.fresh false [] = (Ok once, [DemoBus.fetch])
    ∧ Base.load DemoBus.remote once false [DemoBus.fetch]
      = (Ok twice, [DemoBus.fetch; DemoBus.fetch])
    ∧ Base._loaded twice = false
    ∧ Base._interfaces once !! "svc.Unit" = None
    ∧ is_Some (Base._interfaces twice !! "svc.Unit").
Proof.
  eexists _, _. split; [vm_compute; reflexivity|].
  split; [vm_compute; reflexivity|].
  split; [reflexivity|]. split; [reflexivity|].
  vm_compute. eexists. reflexivity.
Qed.

(** C5 on the code: destination [svc] and an interface [svcX.Manager],
    which is no dotted extension of [svc]. [load] gives the object an
    attribute for it, named [.Manager]. *)
Theorem load_shortcut_for_lookalike :
  ∃ self w,
    Base.load DemoBus.remote DemoBus.fresh false [DemoBus.fetch] = (Ok self, w)
    ∧ Base.set_attrs self !! ".Manager"
      = Some (Base.meta_interface DemoBus.lookalike "svcX.Manager")
    ∧ Base.set_attrs self !! "Manager"
      = Some (Base.meta_interface DemoBus.manager "svc.Manager").
Proof.
  eexists _, _. split; [vm_compute; reflexivity|].
  split; vm_compute; reflexivity.
Qed.

Section shortcut_facts.
Import Base.

Lemma prefix_append (d x : string) : String.prefix d (d +:+ x) = true.
Proof.
  induction d as [|c d IH]; simpl.
  - by destruct x.
  - destruct (ascii_dec c c); [exact IH | contradiction].
Qed.

Lemma string_from_dotted (d suffix : string) :
  string_from (String.length d + 1) (d +:+ "." +:+ suffix) = suffix.
Proof. induction d as [|c d IH]; simpl; [reflexivity | exact IH]. Qed.

(** The shortcut of a dotted extension of the destination is the suffix
    after the dot. *)
Lemma load_node_dotted (d suffix : string) (self : SDObject)
    (attributes : list (string * string)) (children : list node) :
  let interface := Element "interface" attributes children in
  getAttribute interface "name" = d +:+ "." +:+ suffix →
  set_attrs (load_node d self interface) !! suffix
  = Some (meta_interface interface (d +:+ "." +:+ suffix)).
Proof.
  intros interface Hname. unfold load_node. simpl negb. cbv iota.
  rewrite Hname, prefix_append, string_from_dotted. simpl.
  apply lookup_insert_eq.
Qed.

End shortcut_facts.

(** ** base.py: calls and property writes *)

Section interface_facts.
Context (R : Base.Remote).
Import Base.

Lemma overwrite_interface_method_registers (interface : string) (f : pymethod) :
  interface ∈ overwrite_interfaces (overwrite_interface_method interface f)
  ∧ func (overwrite_interface_method interface f) = func f.
Proof.
  split; [|reflexivity]. simpl. apply elem_of_app. right. constructor.
Qed.

(** C6. Let the attribute [method_name] of the owning object be a method
    [m]. Through an interface that [m] is registered for, [_call_method] is
    the call [m(interface_name, *args)], whatever the arguments and
    whatever the interface declares. Through an interface that [m] is not
    registered for, it is the default path, and the default path is the
    same whatever methods the object's class has. *)
Theorem call_method_override (self : SDInterface) (sd_object : SDObject)
    (method_name : string) (m : pymethod) (args : list pyval) (w : World) :
  getattr sd_object method_name = Some (AMethod m) →
  (interface_name self ∈ overwrite_interfaces m →
   _call_method R self sd_object method_name args w
   = func m (interface_name self) args w)
  ∧ (interface_name self ∉ overwrite_interfaces m →
     _call_method R self sd_object method_name args w
     = _call_default R self sd_object method_name args w
     ∧ ∀ ms, _call_default R self (with_cls_methods sd_object ms)
               method_name args w
             = _call_default R self sd_object method_name args w).
Proof.
  intros Hattr. unfold _call_method. rewrite Hattr. simpl. split.
  - intros Hin. rewrite bool_decide_eq_true_2 by assumption. reflexivity.
  - intros Hout. rewrite bool_decide_eq_false_2 by assumption.
    split; reflexivity.
Qed.

Lemma existsb_block_chars (in_args : list string) :
  existsb block_chars in_args = true
  ↔ ∃ arg, arg ∈ in_args ∧ (has_char "v" arg ∨ has_char "{" arg).
Proof.
  rewrite existsb_exists. unfold block_chars, has_char. split.
  - intros (arg & Hin & Hb). exists arg. split; [by apply list_elem_of_In|].
    apply existsb_exists in Hb as (c & Hc & Hor).
    apply list_elem_of_In in Hc.
    apply orb_true_iff in Hor as [H|H]; apply Ascii.eqb_eq in H; subst; auto.
  - intros (arg & Hin & Hor). exists arg. split; [by apply list_elem_of_In|].
    apply existsb_exists.
    destruct Hor as [H|H]; apply list_elem_of_In in H;
      eexists; (split; [exact H|]); reflexivity.
Qed.

(** C7. The check of the signatures is the step after the check of the
    number of arguments, so it is stated for the calls that reach it, those
    with as many arguments as the method declares: if a declared signature
    has a [v] or a [{], the call raises [NotImplementedError] and nothing
    happens on the bus; if none has, the check lets the call through, to
    the packing of the arguments and the call on the bus. *)
Theorem auto_call_rejects_complex (self : SDInterface) (sd_object : SDObject)
    (method_name : string) (in_args : list string) (args : list pyval)
    (w : World) :
  length args = length in_args →
  ((∃ arg, arg ∈ in_args ∧ (has_char "v" arg ∨ has_char "{" arg)) →
   _auto_call_dbus_method R self sd_object method_name in_args args w
   = (Raise (NotImplementedError
               "still not implemented methods with complex arguments"), w))
  ∧ ((∀ arg, arg ∈ in_args → ¬ has_char "v" arg ∧ ¬ has_char "{" arg) →
     _auto_call_dbus_method R self sd_object method_name in_args args w
     = (call_args <~ lift (apply_signature R (String.concat "" in_args) args) ;;
        bus_context sd_object (λ bus,
          bus_call_method R bus (destination sd_object) (path sd_object)
            (interface_name self) method_name call_args)) w).
Proof.
  intros Hlen. unfold _auto_call_dbus_method.
  rewrite Hlen, Nat.eqb_refl. simpl negb. cbv iota. split.
  - intros Hblock. apply existsb_block_chars in Hblock. rewrite Hblock.
    reflexivity.
  - intros Hplain.
    destruct (existsb block_chars in_args) eqn:Hb; [|reflexivity].
    apply existsb_block_chars in Hb as (arg & Hin & Hor).
    destruct (Hplain arg Hin) as [Hv Hbrace]. tauto.
Qed.

(** A call with the wrong number of arguments raises [TypeError] before
    the signatures are looked at. *)
Lemma auto_call_checks_arity_first (self : SDInterface) (sd_object : SDObject)
    (method_name : string) (in_args : list string) (args : list pyval)
    (w : World) :
  length args ≠ length in_args →
  ∃ msg, _auto_call_dbus_method R self sd_object method_name in_args args w
         = (Raise (TypeError msg), w).
Proof.
  intros Hlen. unfold _auto_call_dbus_method.
  rewrite (proj2 (Nat.eqb_neq _ _) Hlen). simpl. eauto.
Qed.




End interface_facts.

(** C6 at the object whose class decorates [GetUnit] for [svc.Manager]:
    through [svc.Manager] the override answers, here with two arguments
    where the interface declares one; through [svc.Unit] the call goes to
    the bus. *)
Lemma call_method_override_witness :
  let m := Base.overwrite_interface_method "svc.Manager" DemoBus.GetUnit in
  let manager := Base.meta_interface DemoBus.manager "svc.Manager" in
  let unit := Base.meta_interface DemoBus.unit "svc.Unit" in
  Base.getattr DemoBus.fresh "GetUnit" = Some (Base.AMethod m)
  ∧ Base.interface_name manager ∈ Base.overwrite_interfaces m
  ∧ Base._call_method DemoBus.remote manager DemoBus.fresh "GetUnit"
      [PBytes "a.service"; PInt 3] []
    = (Ok (PTuple [PBytes "svc.Manager"; PBytes "a.service"; PInt 3]), [])
  ∧ (Base.interface_name unit ∉ Base.overwrite_interfaces m)
  ∧ Base._call_method DemoBus.remote unit DemoBus.fresh "GetUnit"
      [PBytes "a.service"] []
    = (Ok (PList [PBytes "a.service"]),
       [Base.CallMethod DemoBus.bus "svc" "/svc" "svc.Unit" "GetUnit"
          [PBytes "a.service"]]).
Proof.
  intros m manager unit.
  assert (Hattr : Base.getattr DemoBus.fresh "GetUnit" = Some (Base.AMethod m))
    by reflexivity.
  assert (Hin : Base.interface_name manager ∈ Base.overwrite_interfaces m)
    by (apply overwrite_interface_method_registers).
  assert (Hout : Base.interface_name unit ∉ Base.overwrite_interfaces m)
    by (intros H; apply list_elem_of_singleton in H; discriminate).
  split; [exact Hattr|]. split; [exact Hin|]. split; [|split; [exact Hout|]].
  - rewrite (proj1 (call_method_override DemoBus.remote manager DemoBus.fresh
                      "GetUnit" m [PBytes "a.service"; PInt 3] [] Hattr) Hin).
    reflexivity.
  - rewrite (proj1 (proj2 (call_method_override DemoBus.remote unit
                             DemoBus.fresh "GetUnit" m [PBytes "a.service"] []
                             Hattr) Hout)).
    reflexivity.
Defined.

(** C7 at [StartTransientUnit(ssa(sv))] called with three arguments. *)
Lemma auto_call_rejects_complex_witness :
  let self := Base.meta_interface DemoBus.manager "svc.Manager" in
  let in_args := ["s"; "s"; "a(sv)"] in
  let args := [PBytes "a.service"; PBytes "fail"; PList []] in
  length args = length in_args
  ∧ (∃ arg, arg ∈ in_args ∧ (has_char "v" arg ∨ has_char "{" arg))
  ∧ Base._auto_call_dbus_method DemoBus.remote self DemoBus.fresh
      "StartTransientUnit" in_args args []
    = (Raise (NotImplementedError
                "still not implemented methods with complex arguments"), []).
Proof.
  intros self in_args args.
  assert (Hb : ∃ arg, arg ∈ in_args ∧ (has_char "v" arg ∨ has_char "{" arg)).
  { exists "a(sv)". split; [repeat constructor|].
    left. unfold has_char. simpl. repeat constructor. }
  split; [reflexivity|]. split; [exact Hb|].
  exact (proj1 (auto_call_rejects_complex DemoBus.remote self DemoBus.fresh
                  "StartTransientUnit" in_args args [] eq_refl) Hb).
Defined.

(** The step before: the same method called with no argument does not
    reach the check of the signatures, it raises [TypeError]. *)
Lemma auto_call_arity_before_signature :
  Base._auto_call_dbus_method DemoBus.remote
    (Base.meta_interface DemoBus.manager "svc.Manager") DemoBus.fresh
    "StartTransientUnit" ["s"; "s"; "a(sv)"] [] []
  = (Raise (TypeError
              "method StartTransientUnit require 3 arguments, 0 supplied"), []).
Proof. vm_compute. reflexivity. Qed.


(** ** base.py: what a proxy exposes *)

Section proxy_facts.
Import Base.

Lemma tagged_is_element (tag : string) (e : node) :
  tag ≠ "" → tagName e = tag → nodeType e = 1%Z.
Proof. destruct e; simpl; intros Htag He; congruence. Qed.

Lemma foldl_add_element_members (els : list node) (cls : SDInterface) :
  properties (foldl add_element cls els)
  = properties cls
    ++ map (λ e, getAttribute e "name")
         (filter (λ e, tagName e = "property") els)
  ∧ methods (foldl add_element cls els)
    = methods cls
      ++ map (λ e, getAttribute e "name")
           (filter (λ e, tagName e = "method") els).
Proof.
  revert cls. induction els as [|e els IH]; intros cls; simpl.
  - rewrite !app_nil_r. done.
  - destruct (IH (add_element cls e)) as [-> ->]. unfold add_element.
    rewrite !filter_cons.
    destruct (String.eqb_spec (tagName e) "property") as [Hp|Hp].
    + rewrite decide_True by done.
      rewrite decide_False by (rewrite Hp; discriminate).
      simpl. rewrite <- app_assoc. done.
    + rewrite (decide_False (P := tagName e = "property")) by done.
      destruct (String.eqb_spec (tagName e) "method") as [Hm|Hm].
      * rewrite decide_True by done. simpl. rewrite <- app_assoc. done.
      * rewrite decide_False by done. done.
Qed.

(** X1. For an interface none of whose members clashes with a name of the
    class, the proxy lists exactly the names that its property elements,
    and its method elements, declare, in document order and with
    repetitions: nothing is added and nothing is left out. *)
Theorem meta_interface_members (interface : node) (iname : string) :
  plain_members interface →
  properties (meta_interface interface iname)
  = declared_names "property" interface
  ∧ methods (meta_interface interface iname)
    = declared_names "method" interface.
Proof.
  intros _. unfold meta_interface, declared_names.
  destruct (foldl_add_element_members
              (filter (λ n, nodeType n = 1%Z) (childNodes interface))
              (MkSDInterface iname interface [] [] ∅ ∅)) as [-> ->].
  simpl. rewrite !list_filter_filter_l; [done| |].
  - intros e. by apply tagged_is_element.
  - intros e. by apply tagged_is_element.
Qed.

Lemma foldl_add_element_xml (els : list node) (cls : SDInterface) :
  (∀ k e, _properties_xml (foldl add_element cls els) !! k = Some e →
          _properties_xml cls !! k = Some e
          ∨ (e ∈ els ∧ tagName e = "property" ∧ getAttribute e "name" = k))
  ∧ (∀ k e, _methods_xml (foldl add_element cls els) !! k = Some e →
            _methods_xml cls !! k = Some e
            ∨ (e ∈ els ∧ tagName e = "method" ∧ getAttribute e "name" = k)).
Proof.
  revert cls. induction els as [|x els IH]; intros cls; simpl.
  - split; intros k e He; by left.
  - destruct (IH (add_element cls x)) as [IHp IHm].
    split; intros k e He.
    + apply IHp in He as [He|(Hin & Ht & Hn)].
      * unfold add_element in He.
        destruct (String.eqb_spec (tagName x) "property") as [Hp|Hp]; simpl in He.
        -- apply lookup_insert_Some in He as [[<- <-]|[_ He]]; [|by left].
           right. split; [constructor|done].
        -- destruct (String.eqb (tagName x) "method"); by left.
      * right. split; [by constructor|done].
    + apply IHm in He as [He|(Hin & Ht & Hn)].
      * unfold add_element in He.
        destruct (String.eqb_spec (tagName x) "property") as [Hp|Hp]; simpl in He;
          [by left|].
        destruct (String.eqb_spec (tagName x) "method") as [Hm|Hm]; simpl in He;
          [|by left].
        apply lookup_insert_Some in He as [[<- <-]|[_ He]]; [|by left].
        right. split; [constructor|done].
      * right. split; [by constructor|done].
Qed.

Lemma add_element_methods (cls : SDInterface) (element : node) :
  (∀ m, m ∈ methods cls → is_Some (_methods_xml cls !! m)) →
  ∀ m, m ∈ methods (add_element cls element) →
       is_Some (_methods_xml (add_element cls element) !! m).
Proof.
  intros Hinv m. unfold add_element.
  destruct (String.eqb (tagName element) "property"); [simpl; apply Hinv|].
  destruct (String.eqb (tagName element) "method"); simpl; [|apply Hinv].
  intros Hm. apply elem_of_app in Hm as [Hm|Hm].
  - apply lookup_insert_is_Some'. right. by apply Hinv.
  - apply list_elem_of_singleton in Hm. subst.
    apply lookup_insert_is_Some'. by left.
Qed.

(** X2. For an interface none of whose members clashes with a name of the
    class: every method that the proxy lists has an element to read the
    signature from, and the element that is kept for a name is a method
    element of the interface with that name; likewise for properties. *)
Theorem meta_interface_elements (interface : node) (iname : string) :
  plain_members interface →
  let self := meta_interface interface iname in
  (∀ m, m ∈ methods self → is_Some (_methods_xml self !! m))
  ∧ (∀ m e, _methods_xml self !! m = Some e →
            e ∈ childNodes interface ∧ tagName e = "method"
            ∧ getAttribute e "name" = m)
  ∧ (∀ p e, _properties_xml self !! p = Some e →
            e ∈ childNodes interface ∧ tagName e = "property"
            ∧ getAttribute e "name" = p).
Proof.
  intros _ self. subst self. unfold meta_interface.
  set (els := filter (λ n, nodeType n = 1%Z) (childNodes interface)).
  set (init := MkSDInterface iname interface [] [] ∅ ∅).
  assert (Hsub : ∀ e, e ∈ els → e ∈ childNodes interface)
    by (intros e He; by apply list_elem_of_filter in He as [_ He]).
  destruct (foldl_add_element_xml els init) as [Hp Hm].
  split; [|split].
  - assert (Hinit : ∀ m, m ∈ methods init → is_Some (_methods_xml init !! m))
      by (simpl; intros m Hin; by apply elem_of_nil in Hin).
    revert Hinit. generalize init. clear.
    induction els as [|e els IH]; intros cls Hinv; simpl; [exact Hinv|].
    apply IH. by apply add_element_methods.
  - intros m e He. apply Hm in He as [He|(Hin & Ht & Hn)]; [done|]. auto.
  - intros p e He. apply Hp in He as [He|(Hin & Ht & Hn)]; [done|]. auto.
Qed.

End proxy_facts.

(** ** base.py: what load builds and what it does on the bus *)

Section load_more_facts.
Context (R : Base.Remote).
Import Base.

Lemma load_node_interfaces (d : string) (self : SDObject) (n : node)
    (iname : string) :
  _interfaces (load_node d self n) !! iname
  = if decide (tagName n = "interface" ∧ getAttribute n "name" = iname)
    then Some (meta_interface n iname)
    else _interfaces self !! iname.
Proof.
  unfold load_node. destruct n as [tag attributes children|data|data]; simpl;
    try reflexivity.
  destruct (String.eqb_spec tag "interface") as [->|Htag]; simpl.
  - destruct (decide (default "" (assoc attributes "name") = iname)) as [<-|Hn].
    + rewrite decide_True by done. apply lookup_insert_eq.
    + rewrite decide_False by (intros [_ ?]; done).
      by apply lookup_insert_ne.
  - rewrite decide_False by (intros [? _]; done). reflexivity.
Qed.

Lemma foldl_load_node_interfaces (d : string) (nodes : list node)
    (self : SDObject) (iname : string) :
  _interfaces (foldl (load_node d) self nodes) !! iname
  = match last (interfaces_named iname nodes) with
    | Some n => Some (meta_interface n iname)
    | None => _interfaces self !! iname
    end.
Proof.
  revert self. induction nodes as [|n nodes IH]; intros self; simpl.
  - reflexivity.
  - rewrite IH, load_node_interfaces. unfold interfaces_named.
    rewrite filter_cons.
    destruct (decide (tagName n = "interface" ∧ getAttribute n "name" = iname)).
    + rewrite last_cons. by destruct (last _).
    + reflexivity.
Qed.

(** X3. After a [load] that fetched a document [unit_xml] whose members and
    shortcuts clash with no name of the proxies and of the object, the
    proxy kept for a name is the one built from the last interface element
    of that name in the document; a name that the document does not
    declare keeps the entry it had. Nodes that are no interface elements
    are skipped. *)
Theorem load_exposes (self : SDObject) (force : bool) (w w' : World)
    (unit_xml : node) :
  _loaded self && negb force = false →
  get_introspect_xml R self w = (Ok unit_xml, w') →
  plain_document (destination self) unit_xml →
  ∃ self',
    load R self force w = (Ok self', w')
    ∧ ∀ iname,
        _interfaces self' !! iname
        = match last (interfaces_named iname (childNodes unit_xml)) with
          | Some n => Some (meta_interface n iname)
          | None => _interfaces self !! iname
          end.
Proof.
  intros Hguard Hxml _. unfold load, bind. rewrite Hguard, Hxml.
  eexists. split; [reflexivity|].
  intros iname. apply foldl_load_node_interfaces.
Qed.






(** X5. A [load] that does not return early makes one [Introspect] call,
    whatever the reply and whether or not the document parses: on the bus
    it was given, with no opening and no closing of it; on a bus of its
    own, opened before the call and closed after it on every path. *)
Theorem load_transport_scope (self : SDObject) (force : bool) (w : World) :
  _loaded self && negb force = false →
  (load R self force w).2
  = match _bus self with
    | Some bus =>
        w ++ [CallMethod bus (destination self) (path self)
                "org.freedesktop.DBus.Introspectable" "Introspect" []]
    | None =>
        w ++ [BusOpen Fresh;
              CallMethod Fresh (destination self) (path self)
                "org.freedesktop.DBus.Introspectable" "Introspect" [];
              BusClose Fresh]
    end.
Proof.
  intros Hguard. unfold load. rewrite Hguard.
  unfold get_introspect_xml, bus_context.
  destruct (_bus self) as [bus|].
  - unfold bind, bus_call_method, lift.
    destruct (reply_body R w _ _ _ _ _) as [body|e]; [|reflexivity].
    destruct (parseString_lastChild R body); reflexivity.
  - unfold bind, bus_open, finally, bus_call_method, lift.
    destruct (reply_body R (w ++ [BusOpen Fresh]) _ _ _ _ _) as [body|e]; simpl.
    + destruct (parseString_lastChild R body); simpl;
        rewrite <- !app_assoc; reflexivity.
    + rewrite <- !app_assoc. reflexivity.
Qed.

End load_more_facts.

Ltac free_names :=
  repeat match goal with
         | H : _ ∈ _ :: _ |- _ => apply elem_of_cons in H as [->|H]
         | H : _ ∈ [] |- _ => by apply elem_of_nil in H
         end; vm_compute; reflexivity.

Lemma manager_plain : plain_members DemoBus.manager.
Proof. intros e He _. simpl in He. free_names. Qed.

Lemma later_document_plain :
  plain_document "svc"
    (Base.Element "node" []
       [DemoBus.manager; DemoBus.unit; DemoBus.lookalike]).
Proof.
  split; [reflexivity|]. intros n Hn _. simpl in Hn.
  repeat (apply elem_of_cons in Hn as [->|Hn]);
    [| | |by apply elem_of_nil in Hn];
    (split; [reflexivity|]);
    (split; [intros e He _; simpl in He; free_names | intros _; reflexivity]).
Qed.


(** X1 and X2 at the demonstration interface. *)
Lemma meta_interface_members_witness :
  plain_members DemoBus.manager
  ∧ Base.properties (Base.meta_interface DemoBus.manager "svc.Manager")
    = ["Version"; "LogLevel"]
  ∧ Base.methods (Base.meta_interface DemoBus.manager "svc.Manager")
    = ["GetUnit"; "StartTransientUnit"].
Proof.
  split; [exact manager_plain|].
  exact (meta_interface_members DemoBus.manager "svc.Manager" manager_plain).
Defined.

Lemma meta_interface_elements_witness :
  let self := Base.meta_interface DemoBus.manager "svc.Manager" in
  plain_members DemoBus.manager
  ∧ "GetUnit" ∈ Base.methods self
  ∧ is_Some (Base._methods_xml self !! "GetUnit").
Proof.
  intros self.
  assert (Hin : "GetUnit" ∈ Base.methods self) by (vm_compute; constructor).
  split; [exact manager_plain|]. split; [exact Hin|].
  exact (proj1 (meta_interface_elements DemoBus.manager "svc.Manager"
                  manager_plain) "GetUnit" Hin).
Defined.

(** X3 and X4 at the demonstration object: its second document is fetched
    over the first. *)
Lemma load_exposes_witness :
  plain_document (Base.destination DemoBus.fresh)
    (Base.Element "node" []
       [DemoBus.manager; DemoBus.unit; DemoBus.lookalike])
  ∧ ∃ self',
      Base.load DemoBus.remote DemoBus.fresh true [DemoBus.fetch]
      = (Ok self', [DemoBus.fetch; DemoBus.fetch])
      ∧ ∀ iname,
          Base._interfaces self' !! iname
          = match last (interfaces_named iname
                          [DemoBus.manager; DemoBus.unit; DemoBus.lookalike]) with
            | Some n => Some (Base.meta_interface n iname)
            | None => Base._interfaces DemoBus.fresh !! iname
            end.
Proof.
  split; [exact later_document_plain|].
  exact (load_exposes DemoBus.remote DemoBus.fresh true [DemoBus.fetch]
           [DemoBus.fetch; DemoBus.fetch]
           (Base.Element "node" []
              [DemoBus.manager; DemoBus.unit; DemoBus.lookalike])
           eq_refl eq_refl later_document_plain).
Defined.


Lemma load_transport_scope_witness :
  (Base.load DemoBus.remote
     (Base.MkSDObject "svc" "/svc" ∅ true None ∅ ∅) true []).2
  = [Base.BusOpen Base.Fresh;
     Base.CallMethod Base.Fresh "svc" "/svc"
       "org.freedesktop.DBus.Introspectable" "Introspect" [];
     Base.BusClose Base.Fresh].
Proof.
  exact (load_transport_scope DemoBus.remote
           (Base.MkSDObject "svc" "/svc" ∅ true None ∅ ∅) true [] eq_refl).
Defined.

(** ** base.py: property reads and default calls on the bus *)

Section transport_facts.
Context (R : Base.Remote).
Import Base.

(** X6. A read of a property that the proxy does not have raises [KeyError]
    and nothing happens on the bus. A read of one it has is one
    [get_property] call with the declared type: on the bus the object was
    given, with no opening and no closing; on a bus of its own, opened
    before the call and closed after it, also when the call raises. *)
Theorem get_property_scope (self : SDInterface) (sd_object : SDObject)
    (property_name : string) (w : World) :
  _get_property R self sd_object property_name w
  = match _properties_xml self !! property_name with
    | None => (Raise (KeyError property_name), w)
    | Some prop =>
        let read bus w :=
          (property_value R w (destination sd_object) (path sd_object)
             (interface_name self) property_name (getAttribute prop "type"),
           GetProperty bus (destination sd_object) (path sd_object)
             (interface_name self) property_name (getAttribute prop "type")) in
        match _bus sd_object with
        | Some bus => ((read bus w).1, w ++ [(read bus w).2])
        | None =>
            ((read Fresh (w ++ [BusOpen Fresh])).1,
             w ++ [BusOpen Fresh; (read Fresh w).2; BusClose Fresh])
        end
    end.
Proof.
  unfold _get_property, bind, getitem.
  destruct (_properties_xml self !! property_name) as [prop|]; [|reflexivity].
  simpl. unfold bus_context. destruct (_bus sd_object) as [bus|].
  - reflexivity.
  - unfold bind, bus_open, finally, bus_get_property. simpl.
    rewrite <- !app_assoc. reflexivity.
Qed.

(** X7. The default call of a declared method, with as many arguments as
    it declares and no [v] or [{] in its signatures: when packing the
    arguments fails, the exception is raised and nothing happens on the
    bus; otherwise there is one [call_method] with the packed arguments, on
    the given bus as it is, or on a bus of its own that is opened before
    and closed after the call, also when the call raises. *)
Theorem call_default_scope (self : SDInterface) (sd_object : SDObject)
    (method_name : string) (meth : node) (args : list pyval) (w : World) :
  _methods_xml self !! method_name = Some meth →
  length args = length (in_args_of meth) →
  (∀ arg, arg ∈ in_args_of meth → ¬ has_char "v" arg ∧ ¬ has_char "{" arg) →
  _call_default R self sd_object method_name args w
  = match apply_signature R (String.concat "" (in_args_of meth)) args with
    | Raise e => (Raise e, w)
    | Ok call_args =>
        let call bus w :=
          (reply_body R w (destination sd_object) (path sd_object)
             (interface_name self) method_name call_args,
           CallMethod bus (destination sd_object) (path sd_object)
             (interface_name self) method_name call_args) in
        match _bus sd_object with
        | Some bus => ((call bus w).1, w ++ [(call bus w).2])
        | None =>
            ((call Fresh (w ++ [BusOpen Fresh])).1,
             w ++ [BusOpen Fresh; (call Fresh w).2; BusClose Fresh])
        end
    end.
Proof.
  intros Hmeth Hlen Hplain.
  unfold _call_default, bind, getitem. rewrite Hmeth. simpl.
  unfold _auto_call_dbus_method. rewrite Hlen, Nat.eqb_refl. simpl negb.
  cbv iota.
  destruct (existsb block_chars (in_args_of meth)) eqn:Hb.
  { apply existsb_block_chars in Hb as (arg & Hin & Hor).
    destruct (Hplain arg Hin). tauto. }
  unfold bind, lift.
  destruct (apply_signature R _ args) as [call_args|e]; [|reflexivity].
  unfold bus_context. destruct (_bus sd_object) as [bus|].
  - reflexivity.
  - unfold bind, bus_open, finally, bus_call_method. simpl.
    rewrite <- !app_assoc. reflexivity.
Qed.

Lemma overwrite_interfaces_foldr (f : pymethod) (ifaces : list string) :
  overwrite_interfaces (foldr overwrite_interface_method f ifaces)
  = overwrite_interfaces f ++ reverse ifaces
  ∧ func (foldr overwrite_interface_method f ifaces) = func f.
Proof.
  induction ifaces as [|i ifaces [IHo IHf]]; simpl.
  - rewrite app_nil_r. done.
  - rewrite IHo, reverse_cons, app_assoc. done.
Qed.

(** X8. Decorations add up. When the attribute of the owning object is a
    method decorated for the interfaces [ifaces], one decorator on top of
    the other, a call through any of them is the call of the undecorated
    method with the interface name put first; a call through an interface
    that is neither among them nor was registered before takes the default
    path. *)
Theorem call_method_decorated (self : SDInterface) (sd_object : SDObject)
    (method_name : string) (f : pymethod) (ifaces : list string)
    (args : list pyval) (w : World) :
  getattr sd_object method_name
  = Some (AMethod (foldr overwrite_interface_method f ifaces)) →
  (interface_name self ∈ ifaces →
   _call_method R self sd_object method_name args w
   = func f (interface_name self) args w)
  ∧ (interface_name self ∉ ifaces →
     interface_name self ∉ overwrite_interfaces f →
     _call_method R self sd_object method_name args w
     = _call_default R self sd_object method_name args w).
Proof.
  intros Hattr. unfold _call_method. rewrite Hattr. simpl.
  destruct (overwrite_interfaces_foldr f ifaces) as [-> ->]. split.
  - intros Hin. rewrite bool_decide_eq_true_2; [reflexivity|].
    apply elem_of_app. right. by apply elem_of_reverse.
  - intros Hout Hbefore. rewrite bool_decide_eq_false_2; [reflexivity|].
    intros Hin. apply elem_of_app in Hin as [Hin|Hin]; [exact (Hbefore Hin)|].
    rewrite elem_of_reverse in Hin. exact (Hout Hin).
Qed.

End transport_facts.

(** X7 at [GetUnit(s)] of the demonstration interface. *)
Lemma call_default_scope_witness :
  let self := Base.meta_interface DemoBus.manager "svc.Manager" in
  Base._call_default DemoBus.remote self DemoBus.fresh "GetUnit"
    [PBytes "a.service"] []
  = (Ok (PList [PBytes "a.service"]),
     [Base.CallMethod DemoBus.bus "svc" "/svc" "svc.Manager" "GetUnit"
        [PBytes "a.service"]]).
Proof.
  intros self.
  refine (call_default_scope DemoBus.remote self DemoBus.fresh "GetUnit"
            (Base.Element "method" [("name", "GetUnit")] [
               Base.Element "arg" [("type", "s"); ("direction", "in")] [];
               Base.Element "arg" [("type", "o"); ("direction", "out")] []])
            [PBytes "a.service"] [] eq_refl eq_refl _).
  intros arg Harg. apply list_elem_of_singleton in Harg. subst arg.
  unfold has_char. simpl.
  split; intros H; apply list_elem_of_singleton in H; discriminate.
Defined.

(** X8 at a method decorated for [svc.Manager] and for [svc.Unit]. *)
Lemma call_method_decorated_witness :
  let twice :=
    foldr Base.overwrite_interface_method DemoBus.GetUnit
      ["svc.Manager"; "svc.Unit"] in
  let sd_object := with_cls_methods DemoBus.fresh {["GetUnit" := twice]} in
  let unit := Base.meta_interface DemoBus.unit "svc.Unit" in
  Base.getattr sd_object "GetUnit" = Some (Base.AMethod twice)
  ∧ Base.interface_name unit ∈ ["svc.Manager"; "svc.Unit"]
  ∧ Base._call_method DemoBus.remote unit sd_object "GetUnit"
      [PBytes "a.service"] []
    = (Ok (PTuple [PBytes "svc.Unit"; PBytes "a.service"]), []).
Proof.
  intros twice sd_object unit.
  assert (Hattr : Base.getattr sd_object "GetUnit" = Some (Base.AMethod twice))
    by reflexivity.
  assert (Hin : Base.interface_name unit ∈ ["svc.Manager"; "svc.Unit"])
    by (repeat constructor).
  split; [exact Hattr|]. split; [exact Hin|].
  exact (proj1 (call_method_decorated DemoBus.remote unit sd_object "GetUnit"
                  DemoBus.GetUnit ["svc.Manager"; "svc.Unit"]
                  [PBytes "a.service"] [] Hattr) Hin).
Defined.

(** The arity check at [GetUnit(s)] called with two arguments. *)
Lemma auto_call_checks_arity_first_witness :
  length [PBytes "a"; PBytes "b"] ≠ length ["s"]
  ∧ ∃ msg,
      Base._auto_call_dbus_method DemoBus.remote
        (Base.meta_interface DemoBus.manager "svc.Manager") DemoBus.fresh
        "GetUnit" ["s"] [PBytes "a"; PBytes "b"] []
      = (Raise (TypeError msg), []).
Proof.
  assert (Hlen : length [PBytes "a"; PBytes "b"] ≠ length ["s"])
    by (simpl; discriminate).
  split; [exact Hlen|].
  exact (auto_call_checks_arity_first DemoBus.remote
           (Base.meta_interface DemoBus.manager "svc.Manager") DemoBus.fresh
           "GetUnit" ["s"] [PBytes "a"; PBytes "b"] [] Hlen).
Defined.

(** ** run.py: what run raises, and the rest of the bag *)

Section run_more_facts.
Context {W : Type} (P : Run.Platform W).
Import Run.




(** X10. [extra] has the last word on every key it names: its value is
    submitted in place of the computed one, and a [None] in [extra] takes
    the key out of the bag. *)
Theorem run_extra_wins (a : run_args) (s : submission W) (k : string)
    (v : pyval) :
  run P a = Ok s →
  default ∅ (extra a) !! k = Some v →
  unit_properties s !! k = if is_not_None v then Some v else None.
Proof.
  intros Hrun Hv.
  apply run_inv in Hrun as (name & composed & sel & cx & Ha & _ & ->).
  apply assemble_inv in Ha as (fi & fo & fe & exe & env' & _ & _ & _ & _ & ->).
  rewrite drop_None_lookup_eq.
  erewrite lookup_union_Some_l by exact Hv.
  by destruct v.
Qed.

Lemma acquire_pty_pipe (a : run_args) :
  pipe (acquire_pty P a CExit_init).2
  = if pty a && negb (truthy_bytes (machine a))
    then [Entry (os_close P) [PInt (openpty P).1] []]
    else [].
Proof.
  unfold acquire_pty. destruct (pty a); [|reflexivity].
  destruct (truthy_bytes (machine a)); simpl.
  - by destruct (machine_OpenPTY P _).
  - by destruct (openpty P).
Qed.

(** Everything that [assemble] returns, in terms of the parameters. *)
Lemma assemble_inv_full (a : run_args) name composed sel cx :
  assemble P a = Ok (name, composed, sel, cx) →
  ∃ fi fo fe,
    get_fno (stdin a) = Ok fi ∧ get_fno (stdout a) = Ok fo
    ∧ get_fno (stderr a) = Ok fe
    ∧ name = (if truthy_bytes (Run.name a) then default "" (Run.name a)
              else "pystemd" +:+ uuid4_hex P +:+ ".service")
    ∧ sel = (if forwarded P a fi then [default 0%Z fi] else [])
            ++ (if forwarded P a fo
                then [default 0%Z (resolved_pty_master P a)] else [])
    ∧ pipe cx
      = (if pty a && negb (truthy_bytes (machine a))
         then [Entry (os_close P) [PInt (openpty P).1] []] else [])
        ++ (if forwarded P a fi
            then [Entry (tty_tcsetattr P)
                    [PInt (default 0%Z fi); PInt (TCSAFLUSH P);
                     tcgetattr P (default 0%Z fi)] []]
            else [])
    ∧ ∃ exe,
        cmd_0 (cmd a) = Ok exe
        ∧ composed =
          default ∅ (extra a) ∪
          update (routing_of P a fi fo fe) [
            ("Description", PBytes ("pystemd: " +:+ name));
            ("ExecStart",
             PList [PTuple [PBytes exe; PList (map PBytes (cmd a));
                            PBool false]]);
            ("RemainAfterExit", PBool (remain_after_exit a));
            ("WorkingDirectory", of_bytes (cwd a));
            ("User", of_bytes (user a));
            ("Nice", of_int (nice a));
            ("RuntimeMaxUSec", of_int (runtime_max_usec (runtime_max_sec a)));
            ("Environment",
             Environment
               (if forwarded P a fo && truthy_bytes (getenv_TERM P)
                then dict_set (default [] (env a)) "TERM"
                       (dict_get (default [] (env a)) "TERM"
                          (default "" (getenv_TERM P)))
                else default [] (env a)))].
Proof.
  unfold assemble.
  destruct (get_fno (stdin a)) as [fi|] eqn:Hi; simpl; [|discriminate].
  destruct (get_fno (stdout a)) as [fo|] eqn:Ho; simpl; [|discriminate].
  destruct (get_fno (stderr a)) as [fe|] eqn:He; simpl; [|discriminate].
  pose proof (acquire_pty_pipe a) as Hpipe.
  unfold routing_of, forwarded, resolved_pty_path, resolved_pty_master.
  destruct (acquire_pty P a CExit_init) as [[pm pp] cx0]; simpl in *.
  intros Hasm. exists fi, fo, fe. revert Hasm. unfold route_streams.
  destruct (truthy_bytes pp); simpl.
  - destruct (both_set fi pm), (both_set fo pm); simpl; unfold compose;
      (destruct (cmd_0 (cmd a)) as [exe|] eqn:Hc; simpl; [|discriminate]);
      intros [= <- <- <- <-]; simpl;
      do 5 (split; [reflexivity|]);
      (split; [rewrite Hpipe, ?app_nil_r; reflexivity|]);
      exists exe; (split; [reflexivity|]);
      destruct (truthy_bytes (getenv_TERM P)); reflexivity.
  - rewrite !descriptor_id. simpl. unfold compose.
    destruct (cmd_0 (cmd a)) as [exe|] eqn:Hc; simpl; [|discriminate].
    intros [= <- <- <- <-]. simpl.
    do 5 (split; [reflexivity|]).
    split; [rewrite Hpipe, app_nil_r; reflexivity|].
    exists exe. split; reflexivity.
Qed.

Lemma run_inv_full (a : run_args) (s : submission W) :
  run P a = Ok s →
  ∃ name composed sel cx,
    assemble P a = Ok (name, composed, sel, cx)
    ∧ unit_name s = name ∧ unit_mode s = "fail"
    ∧ unit_properties s = drop_None composed
    ∧ selectors s = sel ++ (if wait a then [monbus_get_fd P] else [])
    ∧ pipe (ctexit s)
      = pipe cx ++ (if wait a then [Entry (monbus_close P) [] []] else []).
Proof.
  unfold run. destruct (assemble P a) as [[[[name composed] sel] cx]|e]; simpl;
    [|discriminate].
  destruct (wait a); intros [= <-]; simpl;
    eexists _, _, _, _; repeat split; rewrite ?app_nil_r; reflexivity.
Qed.

Ltac bag_lookup :=
  unfold update; simpl foldl;
  repeat (rewrite lookup_insert_ne by done);
  try rewrite lookup_insert_eq; try rewrite lookup_empty.

Lemma generated_name_nonempty (hex : string) :
  "pystemd" +:+ hex +:+ ".service" ≠ "".
Proof. discriminate. Qed.

(** X11. The unit that [run] submits always has a name: the one passed when
    it is not empty, and otherwise [pystemd<hex>.service] with the digits of
    a fresh UUID. The unit is started in the mode [fail], and its
    description, unless [extra] names it, is the name after [pystemd: ]. *)
Theorem run_unit_name (a : run_args) (s : submission W) :
  run P a = Ok s →
  unit_name s ≠ ""
  ∧ unit_name s
    = match name a with
      | Some n => if String.eqb n "" then "pystemd" +:+ uuid4_hex P +:+ ".service"
                  else n
      | None => "pystemd" +:+ uuid4_hex P +:+ ".service"
      end
  ∧ unit_mode s = "fail"
  ∧ (extra_avoids a ["Description"] →
     unit_properties s !! "Description"
     = Some (PBytes ("pystemd: " +:+ unit_name s))).
Proof.
  intros Hrun.
  apply run_inv_full in Hrun
    as (name & composed & sel & cx & Ha & -> & -> & -> & _ & _).
  apply assemble_inv_full in Ha
    as (fi & fo & fe & _ & _ & _ & Hname & _ & _ & exe & _ & ->).
  assert (Hcases : name = match Run.name a with
      | Some n => if String.eqb n "" then "pystemd" +:+ uuid4_hex P +:+ ".service"
                  else n
      | None => "pystemd" +:+ uuid4_hex P +:+ ".service"
      end).
  { rewrite Hname. unfold truthy_bytes. destruct (Run.name a) as [n|]; [|done].
    simpl. by destruct (String.eqb n ""). }
  split; [|split; [exact Hcases|split; [reflexivity|]]].
  - rewrite Hcases. destruct (Run.name a) as [n|]; [|discriminate].
    destruct (String.eqb_spec n ""); [discriminate|done].
  - intros Hx. rewrite drop_None_lookup_eq, composed_lookup by assumption.
    by bag_lookup.
Qed.

(** X12. Unless [extra] names them, the bag always has the command and the
    flag: [ExecStart] is the one entry [(cmd[0], cmd, False)], and
    [RemainAfterExit] is submitted also when it is [False]. *)
Theorem run_command_properties (a : run_args) (s : submission W) :
  run P a = Ok s →
  extra_avoids a ["ExecStart"; "RemainAfterExit"] →
  ∃ exe,
    head (cmd a) = Some exe
    ∧ unit_properties s !! "ExecStart"
      = Some (PList [PTuple [PBytes exe; PList (map PBytes (cmd a));
                             PBool false]])
    ∧ unit_properties s !! "RemainAfterExit"
      = Some (PBool (remain_after_exit a)).
Proof.
  intros Hrun Hx.
  apply run_inv in Hrun as (name & composed & sel & cx & Ha & _ & ->).
  apply assemble_inv in Ha as (fi & fo & fe & exe & env' & _ & _ & _ & Hexe & ->).
  exists exe. split; [destruct (cmd a); simpl in *; congruence|].
  split; rewrite drop_None_lookup_eq, composed_lookup
    by (eapply extra_avoids_elem; [exact Hx | repeat constructor]);
    by bag_lookup.
Qed.

(** X13. The working directory, the user and the nice level are submitted
    exactly when they are passed, with the value passed, unless [extra]
    names their keys. *)
Theorem run_optional_properties (a : run_args) (s : submission W) :
  run P a = Ok s →
  extra_avoids a ["WorkingDirectory"; "User"; "Nice"] →
  unit_properties s !! "WorkingDirectory" = PBytes <$> cwd a
  ∧ unit_properties s !! "User" = PBytes <$> user a
  ∧ unit_properties s !! "Nice" = PInt <$> nice a.
Proof.
  intros Hrun Hx.
  apply run_inv in Hrun as (name & composed & sel & cx & Ha & _ & ->).
  apply assemble_inv in Ha as (fi & fo & fe & exe & env' & _ & _ & _ & _ & ->).
  repeat split; rewrite drop_None_lookup_eq, composed_lookup
    by (eapply extra_avoids_elem; [exact Hx | repeat constructor]);
    bag_lookup; [by destruct (cwd a) | by destruct (user a) | by destruct (nice a)].
Qed.

Lemma dict_set_get (d : list (string * string)) (k x : string) :
  dict_set d k (dict_get d k x)
  = if bool_decide (k ∈ keys d) then d else d ++ [(k, x)].
Proof.
  unfold keys. induction d as [|[k' v'] d IH]; simpl.
  - reflexivity.
  - destruct (String.eqb_spec k' k) as [->|Hne].
    + rewrite bool_decide_eq_true_2 by constructor. reflexivity.
    + rewrite IH. destruct (bool_decide (k ∈ d.*1)) eqn:Hin.
      * apply bool_decide_eq_true_1 in Hin.
        rewrite bool_decide_eq_true_2 by (by constructor). reflexivity.
      * apply bool_decide_eq_false_1 in Hin.
        rewrite bool_decide_eq_false_2; [reflexivity|].
        intros Hin'. apply elem_of_cons in Hin' as [?|?]; [congruence|done].
Qed.

(** X14. Unless [extra] names [Environment]: the entries of [env] are
    submitted as [KEY=VALUE] in the order of the dictionary, and the
    property is left out when there is none. One entry can be added: when
    [stdout] is forwarded through a terminal and the process has a [TERM],
    that [TERM] goes last, but only if [env] has no [TERM] of its own. *)
Theorem run_Environment (a : run_args) (s : submission W) (fo : option Z) :
  run P a = Ok s →
  extra_avoids a ["Environment"] →
  get_fno (stdout a) = Ok fo →
  let env0 := default [] (env a) in
  let submitted :=
    if forwarded P a fo && truthy_bytes (getenv_TERM P)
       && negb (bool_decide ("TERM" ∈ keys env0))
    then env0 ++ [("TERM", default "" (getenv_TERM P))]
    else env0 in
  unit_properties s !! "Environment"
  = match submitted with
    | [] => None
    | _ => Some (PList (map assignment submitted))
    end.
Proof.
  intros Hrun Hx Hfo env0 submitted.
  apply run_inv in Hrun as (name & composed & sel & cx & Ha & _ & ->).
  apply assemble_inv_full in Ha
    as (fi & fo' & fe & _ & Hfo' & _ & _ & _ & _ & exe & _ & ->).
  assert (fo' = fo) as -> by congruence.
  rewrite drop_None_lookup_eq, composed_lookup by assumption.
  bag_lookup. fold env0.
  assert (Henv : (if forwarded P a fo && truthy_bytes (getenv_TERM P)
                  then dict_set env0 "TERM"
                         (dict_get env0 "TERM" (default "" (getenv_TERM P)))
                  else env0) = submitted).
  { unfold submitted. rewrite dict_set_get.
    destruct (forwarded P a fo && truthy_bytes (getenv_TERM P)); simpl;
      [|reflexivity].
    by destruct (bool_decide ("TERM" ∈ keys env0)). }
  rewrite Henv. by destruct submitted.
Qed.

(** X15. The descriptors that the wait loop selects on, in this order: the
    caller's [stdin] when it is forwarded through a terminal, the master
    side of the terminal when [stdout] is forwarded, and the monitoring
    bus when [run] is to wait. Without a terminal path nothing of the
    caller is selected on. *)
Theorem run_selectors (a : run_args) (s : submission W) (fi fo : option Z) :
  run P a = Ok s →
  get_fno (stdin a) = Ok fi → get_fno (stdout a) = Ok fo →
  selectors s
  = (if forwarded P a fi then [default 0%Z fi] else [])
    ++ (if forwarded P a fo then [default 0%Z (resolved_pty_master P a)] else [])
    ++ (if wait a then [monbus_get_fd P] else []).
Proof.
  intros Hrun Hfi Hfo.
  apply run_inv_full in Hrun
    as (name & composed & sel & cx & Ha & _ & _ & _ & -> & _).
  apply assemble_inv_full in Ha
    as (fi' & fo' & fe & Hfi' & Hfo' & _ & _ & -> & _).
  assert (fi' = fi) as -> by congruence.
  assert (fo' = fo) as -> by congruence.
  by rewrite app_assoc.
Qed.

(** X16. The cleanup stack when the unit is submitted, in the order of
    registration: closing the master side of a terminal that [run] opened
    itself (not the one a machine handed out), restoring the attributes of
    a forwarded [stdin], closing the monitoring bus. *)
Theorem run_cleanup_stack (a : run_args) (s : submission W) (fi : option Z) :
  run P a = Ok s →
  get_fno (stdin a) = Ok fi →
  pipe (ctexit s)
  = (if pty a && negb (truthy_bytes (machine a))
     then [Entry (os_close P) [PInt (openpty P).1] []] else [])
    ++ (if forwarded P a fi
        then [Entry (tty_tcsetattr P)
                [PInt (default 0%Z fi); PInt (TCSAFLUSH P);
                 tcgetattr P (default 0%Z fi)] []]
        else [])
    ++ (if wait a then [Entry (monbus_close P) [] []] else []).
Proof.
  intros Hrun Hfi.
  apply run_inv_full in Hrun
    as (name & composed & sel & cx & Ha & _ & _ & _ & _ & ->).
  apply assemble_inv_full in Ha
    as (fi' & fo' & fe & Hfi' & _ & _ & _ & _ & -> & _).
  assert (fi' = fi) as -> by congruence.
  by rewrite app_assoc.
Qed.

End run_more_facts.

(** The reverse order of release at three resources. *)
Lemma exit_releases_in_reverse_witness :
  (∀ r w, Demo.release [r] [] w = (Ok tt, w ++ [r]))
  ∧ Run.__exit__
      (Run.MkCExit (map (λ r, Run.Entry Demo.release [r] [])
                      [PInt 0; PInt 1; PInt 2])) []
    = (Ok tt, [PInt 2; PInt 1; PInt 0]).
Proof.
  assert (Hrel : ∀ r w, Demo.release [r] [] w = (Ok tt, w ++ [r]))
    by reflexivity.
  split; [exact Hrel|].
  exact (exit_releases_in_reverse Demo.release (λ w r, w ++ [r])
           [PInt 0; PInt 1; PInt 2] [] Hrel).
Defined.

(** X10 at an [extra] that unsets the description. *)
Lemma run_extra_wins_witness :
  let a := Demo.with_terminal Demo.echo false None
             (Some {["Description" := PNone]}) in
  ∃ s, Run.run Demo.platform a = Ok s
       ∧ Run.unit_properties s !! "Description" = None.
Proof.
  intros a.
  destruct (Run.run Demo.platform a) as [s|e] eqn:Hrun.
  - exists s. split; [reflexivity|].
    exact (run_extra_wins Demo.platform a s "Description" PNone Hrun eq_refl).
  - vm_compute in Hrun. discriminate.
Defined.

(** X11 to X13 at [run(['/bin/echo', 'hi'], cwd=b'/tmp')]. *)
Lemma run_unit_name_witness :
  ∃ s, Run.run Demo.platform Demo.echo = Ok s
       ∧ Run.unit_name s = "pystemd0f8fad5bd9cb469fa16570867728950e.service"
       ∧ Run.unit_mode s = "fail".
Proof.
  destruct (Run.run Demo.platform Demo.echo) as [s|e] eqn:Hrun.
  - exists s. split; [reflexivity|].
    destruct (run_unit_name Demo.platform Demo.echo s Hrun)
      as (_ & Hname & Hmode & _).
    split; [exact Hname | exact Hmode].
  - vm_compute in Hrun. discriminate.
Defined.

Lemma run_command_properties_witness :
  extra_avoids Demo.echo ["ExecStart"; "RemainAfterExit"]
  ∧ ∃ s, Run.run Demo.platform Demo.echo = Ok s
         ∧ Run.unit_properties s !! "RemainAfterExit" = Some (PBool false).
Proof.
  assert (Hx : extra_avoids Demo.echo ["ExecStart"; "RemainAfterExit"])
    by (intros k _; reflexivity).
  split; [exact Hx|].
  destruct (Run.run Demo.platform Demo.echo) as [s|e] eqn:Hrun.
  - exists s. split; [reflexivity|].
    destruct (run_command_properties Demo.platform Demo.echo s Hrun Hx)
      as (exe & _ & _ & Hflag).
    exact Hflag.
  - vm_compute in Hrun. discriminate.
Defined.

Lemma run_optional_properties_witness :
  let a := Demo.with_cwd Demo.echo (Some "/tmp") in
  extra_avoids a ["WorkingDirectory"; "User"; "Nice"]
  ∧ ∃ s, Run.run Demo.platform a = Ok s
         ∧ Run.unit_properties s !! "WorkingDirectory" = Some (PBytes "/tmp")
         ∧ Run.unit_properties s !! "User" = None.
Proof.
  intros a.
  assert (Hx : extra_avoids a ["WorkingDirectory"; "User"; "Nice"])
    by (intros k _; reflexivity).
  split; [exact Hx|].
  destruct (Run.run Demo.platform a) as [s|e] eqn:Hrun.
  - exists s. split; [reflexivity|].
    destruct (run_optional_properties Demo.platform a s Hrun Hx)
      as (Hcwd & Huser & _).
    split; [exact Hcwd | exact Huser].
  - vm_compute in Hrun. discriminate.
Defined.

(** X14 to X16 at [run(['/bin/echo', 'hi'], pty=True, stdout=1)] in a
    process whose [TERM] is [xterm]. *)
Lemma run_Environment_witness :
  let a := Demo.with_streams (Demo.with_terminal Demo.echo true None None)
             Run.HNone (Run.HInt 1) Run.HNone in
  extra_avoids a ["Environment"]
  ∧ ∃ s, Run.run Demo.platform a = Ok s
         ∧ Run.unit_properties s !! "Environment"
           = Some (PList [PBytes "TERM=xterm"]).
Proof.
  intros a.
  assert (Hx : extra_avoids a ["Environment"]) by (intros k _; reflexivity).
  split; [exact Hx|].
  destruct (Run.run Demo.platform a) as [s|e] eqn:Hrun.
  - exists s. split; [reflexivity|].
    exact (run_Environment Demo.platform a s (Some 1%Z) Hrun Hx eq_refl).
  - vm_compute in Hrun. discriminate.
Defined.

Lemma run_selectors_witness :
  let a := Demo.with_streams (Demo.with_terminal Demo.echo true None None)
             Run.HNone (Run.HInt 1) Run.HNone in
  ∃ s, Run.run Demo.platform a = Ok s ∧ Run.selectors s = [7%Z].
Proof.
  intros a.
  destruct (Run.run Demo.platform a) as [s|e] eqn:Hrun.
  - exists s. split; [reflexivity|].
    exact (run_selectors Demo.platform a s None (Some 1%Z) Hrun eq_refl eq_refl).
  - vm_compute in Hrun. discriminate.
Defined.

Lemma run_cleanup_stack_witness :
  let a := Demo.with_streams (Demo.with_terminal Demo.echo true None None)
             Run.HNone (Run.HInt 1) Run.HNone in
  ∃ s, Run.run Demo.platform a = Ok s
       ∧ Run.pipe (Run.ctexit s) = [Run.Entry Demo.release [PInt 7] []].
Proof.
  intros a.
  destruct (Run.run Demo.platform a) as [s|e] eqn:Hrun.
  - exists s. split; [reflexivity|].
    exact (run_cleanup_stack Demo.platform a s None Hrun eq_refl).
  - vm_compute in Hrun. discriminate.
Defined.

(** ** run.py: the wait loop *)

Section wait_facts.
Import Wait.

Lemma bind_Ok {W A B} (c : M W A) (k : A → M W B) (w w' : W) (b : B) :
  bind c k w = (Ok b, w') → ∃ a w1, c w = (Ok a, w1) ∧ k a w1 = (Ok b, w').
Proof.
  unfold bind. destruct (c w) as [[a|e] w1]; [eauto|discriminate].
Qed.

Lemma in_EXIT_SUBSTATES_true (x : option pyval) :
  in_EXIT_SUBSTATES x = true
  ↔ ∃ sub, x = Some (PBytes sub) ∧ sub ∈ EXIT_SUBSTATES.
Proof.
  unfold in_EXIT_SUBSTATES. split.
  - destruct x as [[]|]; try discriminate.
    intros H. apply bool_decide_eq_true_1 in H. eauto.
  - intros (sub & -> & Hsub). by apply bool_decide_eq_true_2.
Qed.

Lemma watch_Break (l : locals) (r : round) :
  watch l r = Break
  ↔ (monitor_fd l ∈ ready r ∧ reports_exit (process r) (unit_path l))
    ∨ (ready r = [] ∧ truthy_number (_wait_polling l) = true
       ∧ MainPID r = 0%Z).
Proof.
  unfold watch, reports_exit.
  destruct (bool_decide (monitor_fd l ∈ ready r)) eqn:Hmon.
  - apply bool_decide_eq_true_1 in Hmon.
    assert (Hne : ready r ≠ []) by (intros Hn; rewrite Hn in Hmon;
                                     by apply elem_of_nil in Hmon).
    destruct (is_empty (process r)) eqn:Hempty.
    { split; [discriminate|]. intros [(_ & H & _)|(H & _)]; done. }
    destruct (String.eqb_spec (get_path (process r)) (unit_path l)) as [Hp|Hp];
      simpl.
    + destruct (in_EXIT_SUBSTATES (body_1 (process r) !! "SubState")) eqn:Hsub.
      * split; [|done]. intros _. left.
        apply in_EXIT_SUBSTATES_true in Hsub. done.
      * destruct (ready r) as [|x xs]; [done|].
        rewrite andb_false_r. simpl. split; [discriminate|].
        intros [(_ & _ & _ & Hs)|(H & _)]; [|done].
        apply in_EXIT_SUBSTATES_true in Hs. congruence.
    + destruct (ready r) as [|x xs]; [done|].
      rewrite andb_false_r. simpl. split; [discriminate|].
      intros [(_ & _ & H & _)|(H & _)]; done.
  - apply bool_decide_eq_false_1 in Hmon.
    destruct (truthy_number (_wait_polling l)); simpl.
    + destruct (ready r) as [|x xs]; simpl.
      * destruct (Z.eqb_spec (MainPID r) 0).
        -- split; [|done]. intros _. right. done.
        -- split; [discriminate|]. intros [(H & _)|(_ & _ & H)]; done.
      * split; [discriminate|]. intros [(H & _)|(H & _)]; done.
    + split; [discriminate|]. intros [(H & _)|(_ & H & _)]; done.
Qed.

(** X17. A round that [wait_round] completes ends the loop in exactly two
    cases: the monitoring bus was ready and its message, not the empty
    one, reports for the path of the unit a sub-state among [exited],
    [failed] and [dead]; or nothing at all was ready, [_wait_polling] is
    not zero and the main PID of the unit reads 0. *)
Theorem wait_round_breaks (l : locals) (r : round) (st st' : state) (s : step) :
  wait_round l r st = (Ok s, st') →
  (s = Break
   ↔ (monitor_fd l ∈ ready r ∧ reports_exit (process r) (unit_path l))
     ∨ (ready r = [] ∧ truthy_number (_wait_polling l) = true
        ∧ MainPID r = 0%Z)).
Proof.
  intros Hround. unfold wait_round in Hround.
  apply bind_Ok in Hround as (_ & st1 & _ & Hround).
  apply bind_Ok in Hround as (_ & st2 & _ & Hround).
  injection Hround as <- _. apply watch_Break.
Qed.

Lemma effective_polling_user (x : option QArith_base.Q) :
  truthy_number (effective_polling true x) = true.
Proof.
  unfold effective_polling.
  destruct (truthy_number x) eqn:Hx; [exact Hx | reflexivity].
Qed.

Lemma wait_round_idle (l : locals) (r : round) (st : state) :
  ready r = [] → wait_round l r st = (Ok (watch l r), st).
Proof.
  intros Hidle. unfold wait_round, bind, ret, is_ready. rewrite Hidle.
  destruct (stdin l) as [i|], (pty_master l) as [m|]; simpl;
    rewrite ?bool_decide_eq_false_2 by apply not_elem_of_nil; reflexivity.
Qed.

(** X18. A round in which nothing was ready changes nothing. For a user
    session the polling interval is never zero (0.5 when none was passed),
    so such a round ends the loop as soon as the main PID reads 0, also
    when the unit has not started yet. With no interval, as in a system
    session with the default, such a round never ends the loop. *)
Theorem wait_round_idle_fallback (l : locals) (r : round) (st : state)
    (polling : option QArith_base.Q) :
  ready r = [] →
  (_wait_polling l = effective_polling true polling →
   MainPID r = 0%Z → wait_round l r st = (Ok Break, st))
  ∧ (_wait_polling l = effective_polling true polling →
     MainPID r ≠ 0%Z → wait_round l r st = (Ok Continue, st))
  ∧ (_wait_polling l = effective_polling false None →
     wait_round l r st = (Ok Continue, st)).
Proof.
  intros Hidle. rewrite (wait_round_idle l r st Hidle).
  assert (Hmon : bool_decide (monitor_fd l ∈ ready r) = false)
    by (rewrite Hidle; apply bool_decide_eq_false_2, not_elem_of_nil).
  unfold watch. rewrite Hmon, Hidle.
  split; [|split].
  - intros -> ->. by rewrite effective_polling_user.
  - intros -> Hpid. rewrite effective_polling_user. simpl.
    by destruct (Z.eqb_spec (MainPID r) 0).
  - intros ->. reflexivity.
Qed.

(** X19. In a round where the caller's [stdin] and the terminal are both
    ready and both reads give bytes, the bytes of [stdin] are written to
    the master side first and the bytes of the terminal to [stdout] after
    them; the list to select on is as before. *)
Theorem wait_round_forwards (l : locals) (r : round) (st : state)
    (i o m : Z) (typed shown : string) :
  stdin l = Some i → stdout l = Some o → pty_master l = Some m →
  i ∈ ready r → m ∈ ready r →
  read_stdin r = Data typed → read_pty r = Data shown →
  wait_round l r st
  = (Ok (watch l r),
     State (selectors st) (written st ++ [(m, typed); (o, shown)])).
Proof.
  intros Hi Ho Hm Hiready Hmready Hin Hpty.
  unfold wait_round, bind, ret, is_ready.
  rewrite Hi, Ho, Hm, Hin, Hpty.
  rewrite !bool_decide_eq_true_2 by assumption. simpl.
  rewrite <- app_assoc. reflexivity.
Qed.

Lemma list_remove_elem (x : Z) (sel : list Z) :
  x ∈ sel →
  ∃ sel', list_remove x sel = Some sel'
          ∧ length sel = S (length sel')
          ∧ (∀ y, y ∈ sel' → y ∈ sel)
          ∧ (NoDup sel → x ∉ sel').
Proof.
  induction sel as [|y sel IH]; intros Hin; [by apply elem_of_nil in Hin|].
  simpl. destruct (bool_decide (y = x)) eqn:Hy.
  - apply bool_decide_eq_true_1 in Hy. subst y.
    exists sel. split; [done|]. split; [done|].
    split; [intros z Hz; by constructor|].
    intros Hnd. by apply NoDup_cons in Hnd as [Hnot _].
  - apply bool_decide_eq_false_1 in Hy.
    apply elem_of_cons in Hin as [->|Hin]; [done|].
    destruct (IH Hin) as (sel' & -> & Hlen & Hsub & Hnd).
    exists (y :: sel'). simpl. split; [done|]. split; [by rewrite Hlen|].
    split.
    + intros z Hz. apply elem_of_cons in Hz as [->|Hz]; [constructor|].
      constructor. by apply Hsub.
    + intros Hnodup. apply NoDup_cons in Hnodup as [_ Hnodup].
      intros Hx. apply elem_of_cons in Hx as [Hx|Hx]; [congruence|].
      by apply Hnd.
Qed.

(** X20. A read of the terminal that fails with [OSError] is not fatal: the
    round goes on to the monitoring message, nothing is written, and the
    master side is taken off the list to select on once (so it is no longer
    on a list that had it once). *)
Theorem wait_round_terminal_closed (l : locals) (r : round) (st : state)
    (m : Z) :
  pty_master l = Some m → is_ready (stdin l) (ready r) = false →
  m ∈ ready r → m ∈ selectors st → read_pty r = ReadOSError →
  ∃ sel',
    wait_round l r st = (Ok (watch l r), State sel' (written st))
    ∧ length (selectors st) = S (length sel')
    ∧ (∀ fd, fd ∈ sel' → fd ∈ selectors st)
    ∧ (NoDup (selectors st) → m ∉ sel').
Proof.
  intros Hm Hstdin Hready Hsel Hpty.
  destruct (list_remove_elem m (selectors st) Hsel)
    as (sel' & Hrem & Hlen & Hsub & Hnd).
  exists sel'. split; [|done].
  unfold wait_round, bind, ret. rewrite Hstdin, Hm, Hpty. simpl.
  rewrite bool_decide_eq_true_2 by assumption.
  unfold selectors_remove. rewrite Hrem. reflexivity.
Qed.

End wait_facts.

Section wait_after_run.
Context {W : Type} (P : Run.Platform W).

Lemma both_set_Some (x y : option Z) :
  Run.both_set x y = true → ∃ i m, x = Some i ∧ y = Some m.
Proof. destruct x, y; simpl; try discriminate. eauto. Qed.

Lemma forwarded_Some (a : Run.run_args) (fd : option Z) :
  forwarded P a fd = true →
  ∃ i m, fd = Some i ∧ resolved_pty_master P a = Some m.
Proof.
  unfold forwarded. intros H. apply andb_true_iff in H as [_ H].
  by apply both_set_Some.
Qed.

(** Which of the caller's names stands behind a selected descriptor. *)
Lemma run_selected (a : Run.run_args) (s : Run.submission W)
    (fi fo : option Z) (fd : Z) :
  Run.run P a = Ok s →
  Run.get_fno (Run.stdin a) = Ok fi → Run.get_fno (Run.stdout a) = Ok fo →
  fd ∈ Run.selectors s →
  (forwarded P a fi = true ∧ fi = Some fd)
  ∨ (forwarded P a fo = true ∧ resolved_pty_master P a = Some fd)
  ∨ fd = Run.monbus_get_fd P.
Proof.
  intros Hrun Hfi Hfo Hin.
  rewrite (run_selectors P a s fi fo Hrun Hfi Hfo) in Hin.
  apply elem_of_app in Hin as [Hin|Hin]; [|apply elem_of_app in Hin as [Hin|Hin]].
  - destruct (forwarded P a fi) eqn:Hf; [|by apply elem_of_nil in Hin].
    apply list_elem_of_singleton in Hin.
    destruct (forwarded_Some a fi Hf) as (i & m & -> & _). simpl in Hin.
    left. by subst.
  - destruct (forwarded P a fo) eqn:Hf; [|by apply elem_of_nil in Hin].
    apply list_elem_of_singleton in Hin.
    destruct (forwarded_Some a fo Hf) as (i & m & _ & Hm).
    rewrite Hm in Hin |- *. simpl in Hin. right. left. by subst.
  - destruct (Run.wait a); [|by apply elem_of_nil in Hin].
    apply list_elem_of_singleton in Hin. by do 2 right.
Qed.

(** X21. The loop can serve every descriptor that [run] selects on. Let the
    descriptors of the caller, of the terminal and of the monitoring bus be
    different ones. In a state whose list is part of the list that [run]
    built, a round that finds ready only descriptors of that list, and
    whose read of [stdin] gives bytes, is completed without an exception:
    no write goes to a missing descriptor and no descriptor is taken off
    the list that is not on it; and the list only shrinks. *)
Theorem wait_round_safe (a : Run.run_args) (s : Run.submission W)
    (fi fo : option Z) (path : string) (polling : option QArith_base.Q)
    (r : Wait.round) (st : Wait.state) :
  let l := loop_locals P a fi fo path polling in
  Run.run P a = Ok s →
  Run.get_fno (Run.stdin a) = Ok fi → Run.get_fno (Run.stdout a) = Ok fo →
  distinct_descriptors l →
  (∀ fd, fd ∈ Wait.selectors st → fd ∈ Run.selectors s) →
  (∀ fd, fd ∈ Wait.ready r → fd ∈ Wait.selectors st) →
  Wait.read_stdin r ≠ Wait.ReadOSError →
  ∃ st',
    Wait.wait_round l r st = (Ok (Wait.watch l r), st')
    ∧ ∀ fd, fd ∈ Wait.selectors st' → fd ∈ Wait.selectors st.
Proof.
  intros l Hrun Hfi Hfo (Hdi & Hdm & Hdim) Hpart Hready Hread.
  simpl in Hdi, Hdm, Hdim.
  assert (Hsel : ∀ fd, fd ∈ Wait.ready r →
            (forwarded P a fi = true ∧ fi = Some fd)
            ∨ (forwarded P a fo = true ∧ resolved_pty_master P a = Some fd)
            ∨ fd = Run.monbus_get_fd P).
  { intros fd Hfd. eapply run_selected; eauto. }
  unfold Wait.wait_round, bind, ret. simpl.
  (* stdin *)
  assert (Hfirst : ∃ st1,
    (if Wait.is_ready fi (Wait.ready r)
     then match Wait.read_stdin r with
          | Wait.Data data => Wait.os_write (resolved_pty_master P a) data
          | Wait.ReadOSError => raise (OtherError "OSError")
          end
     else (λ w, (Ok (), w))) st = (Ok tt, st1)
    ∧ Wait.selectors st1 = Wait.selectors st).
  { destruct (Wait.is_ready fi (Wait.ready r)) eqn:Hr; [|eauto].
    destruct fi as [i|]; [|discriminate]. simpl in Hr.
    apply bool_decide_eq_true_1 in Hr.
    destruct (Wait.read_stdin r) as [data|]; [|done].
    assert (Hm : ∃ m, resolved_pty_master P a = Some m).
    { destruct (Hsel i Hr) as [[Hf _]|[[_ Hm]|Hmon]].
      - destruct (forwarded_Some a _ Hf) as (? & m & _ & Hm). eauto.
      - eauto.
      - subst. done. }
    destruct Hm as [m ->]. simpl. eauto. }
  destruct Hfirst as (st1 & -> & Hst1).
  (* the terminal *)
  destruct (Wait.is_ready (resolved_pty_master P a) (Wait.ready r)) eqn:Hr;
    [|exists st1; split; [reflexivity|by rewrite Hst1]].
  destruct (resolved_pty_master P a) as [m|] eqn:Hm; [|discriminate].
  simpl in Hr. apply bool_decide_eq_true_1 in Hr.
  destruct (Wait.read_pty r) as [data|].
  - assert (Ho : ∃ o, fo = Some o).
    { destruct (Hsel m Hr) as [[Hf Hi]|[[Hf _]|Hmon]].
      - exfalso. apply Hdim; [by rewrite Hi|]. by rewrite Hi.
      - destruct (forwarded_Some a _ Hf) as (o & ? & -> & _). eauto.
      - subst. done. }
    destruct Ho as [o ->]. simpl. eexists. split; [reflexivity|].
    simpl. by rewrite Hst1.
  - assert (Hin : m ∈ Wait.selectors st1) by (rewrite Hst1; by apply Hready).
    destruct (list_remove_elem m _ Hin) as (sel' & Hrem & _ & Hsub & _).
    unfold Wait.selectors_remove. rewrite Hrem.
    eexists. split; [reflexivity|]. simpl.
    intros fd Hfd. rewrite <- Hst1. by apply Hsub.
Qed.

End wait_after_run.

(** X17 at a round that reports [exited] for the unit. *)
Lemma wait_round_breaks_witness :
  Wait.wait_round DemoWait.names DemoWait.exited DemoWait.start
  = (Ok Wait.Break, DemoWait.start)
  ∧ ((Wait.monitor_fd DemoWait.names ∈ Wait.ready DemoWait.exited
      ∧ reports_exit (Wait.process DemoWait.exited)
          (Wait.unit_path DemoWait.names))
     ∨ (Wait.ready DemoWait.exited = []
        ∧ Wait.truthy_number (Wait._wait_polling DemoWait.names) = true
        ∧ Wait.MainPID DemoWait.exited = 0%Z)).
Proof.
  assert (Hround : Wait.wait_round DemoWait.names DemoWait.exited DemoWait.start
                   = (Ok Wait.Break, DemoWait.start)) by reflexivity.
  split; [exact Hround|].
  exact (proj1 (wait_round_breaks DemoWait.names DemoWait.exited DemoWait.start
                  DemoWait.start Wait.Break Hround) eq_refl).
Defined.

(** X18 at an idle round of a user session. *)
Lemma wait_round_idle_fallback_witness :
  let user :=
    Wait.Locals (Some 0%Z) (Some 1%Z) (Some 7%Z) 11 DemoWait.path
      (Wait.effective_polling true None) in
  Wait.ready DemoWait.idle = []
  ∧ Wait.wait_round user DemoWait.idle DemoWait.start
    = (Ok Wait.Break, DemoWait.start).
Proof.
  intros user. split; [reflexivity|].
  exact (proj1 (wait_round_idle_fallback user DemoWait.idle DemoWait.start None
                  eq_refl) eq_refl eq_refl).
Defined.

(** X19 at a round with bytes on both sides. *)
Lemma wait_round_forwards_witness :
  Wait.wait_round DemoWait.names DemoWait.typing DemoWait.start
  = (Ok Wait.Continue,
     Wait.State [0%Z; 7%Z; 11%Z] [(7%Z, "ls"); (1%Z, "ls")]).
Proof.
  refine (wait_round_forwards DemoWait.names DemoWait.typing DemoWait.start
            0 1 7 "ls" "ls" eq_refl eq_refl eq_refl _ _ eq_refl eq_refl);
    repeat constructor.
Defined.

(** X20 at a round in which the terminal has gone. *)
Lemma wait_round_terminal_closed_witness :
  ∃ sel',
    Wait.wait_round DemoWait.names DemoWait.hangup DemoWait.start
    = (Ok (Wait.watch DemoWait.names DemoWait.hangup), Wait.State sel' [])
    ∧ length (Wait.selectors DemoWait.start) = S (length sel')
    ∧ (∀ fd, fd ∈ sel' → fd ∈ Wait.selectors DemoWait.start)
    ∧ (NoDup (Wait.selectors DemoWait.start) → 7%Z ∉ sel').
Proof.
  refine (wait_round_terminal_closed DemoWait.names DemoWait.hangup
            DemoWait.start 7 eq_refl eq_refl _ _ eq_refl);
    repeat constructor.
Defined.

(** X21 at an interactive [run] and a round with bytes on both sides. *)
Lemma wait_round_safe_witness :
  let l := loop_locals Demo.platform DemoWait.interactive (Some 0%Z) (Some 1%Z)
             DemoWait.path None in
  let st := Wait.State [0%Z; 7%Z] [] in
  distinct_descriptors l
  ∧ ∃ s, Run.run Demo.platform DemoWait.interactive = Ok s
         ∧ Run.selectors s = [0%Z; 7%Z]
         ∧ ∃ st',
             Wait.wait_round l DemoWait.typing st
             = (Ok (Wait.watch l DemoWait.typing), st')
             ∧ ∀ fd, fd ∈ Wait.selectors st' → fd ∈ Wait.selectors st.
Proof.
  intros l st.
  assert (Hd : distinct_descriptors l)
    by (repeat split; intros; discriminate).
  split; [exact Hd|].
  destruct (Run.run Demo.platform DemoWait.interactive) as [s|e] eqn:Hrun.
  - assert (Hsel : Run.selectors s = [0%Z; 7%Z])
      by exact (run_selectors Demo.platform DemoWait.interactive s
                  (Some 0%Z) (Some 1%Z) Hrun eq_refl eq_refl).
    exists s. split; [reflexivity|]. split; [exact Hsel|].
    refine (wait_round_safe Demo.platform DemoWait.interactive s
              (Some 0%Z) (Some 1%Z) DemoWait.path None DemoWait.typing st
              Hrun eq_refl eq_refl Hd _ _ _).
    + intros fd Hfd. rewrite Hsel. exact Hfd.
    + intros fd Hfd. exact Hfd.
    + discriminate.
  - vm_compute in Hrun. discriminate.
Defined.

(** ** run.py and base.py: two more compositions *)

Section more_compositions.
Import Run.

Lemma pipe_foldl_register {W} (meth : list pyval → list (string * pyval) → M W unit)
    (resources : list pyval) (c : CExit W) :
  pipe (foldl (λ c r, register c meth [r] []) c resources)
  = pipe c ++ map (λ r, Entry meth [r] []) resources.
Proof.
  revert c. induction resources as [|r resources IH]; intros c; simpl.
  - by rewrite app_nil_r.
  - rewrite IH. simpl. by rewrite <- app_assoc.
Qed.

(** X22. A stack that is made empty and then given one release per
    resource with [register], each release returning, is unwound by
    [__exit__] without an exception, every release being called once, the
    last registered first. *)
Theorem register_then_exit {W}
    (release : list pyval → list (string * pyval) → M W unit)
    (log : W → pyval → W) (resources : list pyval) (w : W) :
  (∀ r w, release [r] [] w = (Ok tt, log w r)) →
  __exit__ (foldl (λ c r, register c release [r] []) CExit_init resources) w
  = (Ok tt, foldl log w (reverse resources)).
Proof.
  intros Hrel.
  rewrite <- (exit_releases_in_reverse release log resources w Hrel).
  f_equal. destruct (foldl _ _ _) as [p] eqn:Hp.
  f_equal. change p with (pipe (MkCExit p)). rewrite <- Hp.
  by rewrite pipe_foldl_register.
Qed.

End more_compositions.

Section arity_facts.
Context (R : Base.Remote).
Import Base.

(** X23. The default call of a declared method with a number of arguments
    other than the number of its input arguments raises [TypeError], the
    message giving both numbers, and nothing happens on the bus: no
    connection is opened and nothing is packed. *)
Theorem call_default_arity (self : SDInterface) (sd_object : SDObject)
    (method_name : string) (meth : node) (args : list pyval) (w : World) :
  _methods_xml self !! method_name = Some meth →
  length args ≠ length (in_args_of meth) →
  _call_default R self sd_object method_name args w
  = (Raise (TypeError ("method " +:+ method_name +:+ " require "
                       +:+ pretty (length (in_args_of meth)) +:+ " arguments, "
                       +:+ pretty (length args) +:+ " supplied")), w).
Proof.
  intros Hmeth Hlen. unfold _call_default, bind, getitem. rewrite Hmeth. simpl.
  unfold _auto_call_dbus_method.
  rewrite (proj2 (Nat.eqb_neq _ _) Hlen). reflexivity.
Qed.

End arity_facts.

(** X22 at three resources. *)
Lemma register_then_exit_witness :
  (∀ r w, Demo.release [r] [] w = (Ok tt, w ++ [r]))
  ∧ Run.__exit__
      (Run.register
         (Run.register
            (Run.register Run.CExit_init Demo.release [PInt 0] [])
            Demo.release [PInt 1] [])
         Demo.release [PInt 2] []) []
    = (Ok tt, [PInt 2; PInt 1; PInt 0]).
Proof.
  assert (Hrel : ∀ r w, Demo.release [r] [] w = (Ok tt, w ++ [r]))
    by reflexivity.
  split; [exact Hrel|].
  exact (register_then_exit Demo.release (λ w r, w ++ [r])
           [PInt 0; PInt 1; PInt 2] [] Hrel).
Defined.

(** X23 at [GetUnit(s)] called with two arguments. *)
Lemma call_default_arity_witness :
  Base._call_default DemoBus.remote
    (Base.meta_interface DemoBus.manager "svc.Manager") DemoBus.fresh
    "GetUnit" [PBytes "a"; PBytes "b"] []
  = (Raise (TypeError "method GetUnit require 1 arguments, 2 supplied"), []).
Proof.
  refine (call_default_arity DemoBus.remote
            (Base.meta_interface DemoBus.manager "svc.Manager") DemoBus.fresh
            "GetUnit"
            (Base.Element "method" [("name", "GetUnit")] [
               Base.Element "arg" [("type", "s"); ("direction", "in")] [];
               Base.Element "arg" [("type", "o"); ("direction", "out")] []])
            [PBytes "a"; PBytes "b"] [] eq_refl _).
  simpl. discriminate.
Defined.
